(** * Tikauto: download two videos, stack them, cut the result into chunks

    A shallow embedding of [youtube-donwload/dowload.py].

    The script is sequencing and error handling around two libraries
    (pytubefix, moviepy) and the [os] module.  Those collaborators are not
    part of the repository: they are taken as an environment [Env] of
    operations, each of which answers a call either with a value or with a
    Python exception.  The functions of the script are written in a small
    monad that threads the transcript of collaborator calls and propagates
    exceptions, with [try_except] for the script's [try]/[except] blocks. *)

From Stdlib Require Import ZArith QArith List String Ascii Lia Bool DecimalString.
Import ListNotations.

Open Scope string_scope.
Open Scope Z_scope.

(** ** Python values *)

(** An instance of [Exception] (or of a subclass): the class every handler of
    the script names.  The interpreter-exit signals that derive from
    [BaseException] only ([KeyboardInterrupt], [SystemExit]) are not values
    of this type. *)
Record PyException : Type := mkExc { exc_class : string; exc_msg : string }.

(** What a call does: it returns a value or raises. *)
Inductive outcome (A : Type) : Type :=
| Returned (a : A)
| Raised (e : PyException).
Arguments Returned {A} a.
Arguments Raised {A} e.

Definition returned {A} (r : outcome A) : bool :=
  match r with Returned _ => true | Raised _ => false end.

(** [str(n)] for an integer. *)
Definition str_Z (n : Z) : string := NilZero.string_of_int (Z.to_int n).

(** [int(x)] for a float [x], read as a rational: truncation toward zero. *)
Definition py_int (x : Q) : Z := Z.quot (Qnum x) (Zpos (Qden x)).

(** [x < y] on floats read as rationals. *)
Definition Qlt_bool (x y : Q) : bool :=
  (Qnum x * Zpos (Qden y) <? Qnum y * Zpos (Qden x))%Z.

(** [len(range(start, stop, step))] for a non-zero step. *)
Definition range_len (start stop step : Z) : Z :=
  if 0 <? step
  then if start <? stop then (stop - start - 1) / step + 1 else 0
  else if stop <? start then (start - stop - 1) / (- step) + 1 else 0.

(** [range(start, stop, step)], which raises [ValueError] on a zero step. *)
Definition py_range (start stop step : Z) : outcome (list Z) :=
  if step =? 0
  then Raised (mkExc "ValueError" "range() arg 3 must not be zero")
  else Returned (map (fun k => start + Z.of_nat k * step)
                     (seq 0 (Z.to_nat (range_len start stop step)))).

(** [s.startswith("/")] and [s.endswith("/")]. *)
Definition starts_with_sep (s : string) : bool :=
  match s with
  | String c _ => Ascii.eqb c "/"
  | EmptyString => false
  end.

Fixpoint ends_with_sep (s : string) : bool :=
  match s with
  | EmptyString => false
  | String c EmptyString => Ascii.eqb c "/"
  | String _ rest => ends_with_sep rest
  end.

(** [os.path.join(a, b)] (posixpath). *)
Definition path_join (a b : string) : string :=
  if starts_with_sep b then b
  else if (a =? "")%string || ends_with_sep a then a ++ b
  else a ++ "/" ++ b.

(** The characters [str.strip()] removes, within ASCII. *)
Definition is_space (c : ascii) : bool :=
  let n := nat_of_ascii c in
  ((9 <=? n) && (n <=? 13) || (28 <=? n) && (n <=? 32))%nat.

Fixpoint lstrip (s : string) : string :=
  match s with
  | String c rest => if is_space c then lstrip rest else s
  | EmptyString => EmptyString
  end.

Fixpoint rstrip (s : string) : string :=
  match s with
  | String c rest =>
      match rstrip rest with
      | EmptyString => if is_space c then EmptyString else String c EmptyString
      | rest' => String c rest'
      end
  | EmptyString => EmptyString
  end.

Definition strip (s : string) : string := rstrip (lstrip s).

(** Truth value of a path-or-[None]: [None] and the empty string are false. *)
Definition truthy_path (p : option string) : bool :=
  match p with
  | None => false
  | Some s => negb (s =? "")%string
  end.

(** Truth value of a clip-or-[None]: a clip object is always true. *)
Definition truthy_obj {A} (c : option A) : bool :=
  match c with None => false | Some _ => true end.

(** ** The collaborators *)

Section Collaborators.

(** Object types of the libraries: a [YouTube] object, a stream, a clip. *)
Variables YT Stream Clip : Type.

(** One entry of the transcript: a call into a collaborator with what it
    answered, or a line printed on the console. *)
Inductive event : Type :=
| EvPrint (line : string)
| EvYouTube (url : string) (r : outcome YT)
| EvTitle (yt : YT) (r : outcome string)
| EvHighestResolution (yt : YT) (r : outcome (option Stream))
| EvDownload (stream : Stream) (output_path : string) (r : outcome string)
| EvVideoFileClip (path : string) (r : outcome Clip)
| EvWithoutAudio (c : Clip) (r : outcome Clip)
| EvResize (c : Clip) (width : Z) (r : outcome Clip)
| EvLoop (c : Clip) (duration : Q) (r : outcome Clip)
| EvSetPosition (c : Clip) (pos : string * string) (r : outcome Clip)
| EvComposite (layers : list Clip) (size : Z * Z) (r : outcome Clip)
| EvSubclip (c : Clip) (t_start t_end : Z) (r : outcome Clip)
| EvWriteVideofile (c : Clip) (path codec : string) (fps : Z) (r : outcome unit)
| EvMakedirs (path : string) (exist_ok : bool) (r : outcome unit)
| EvNow (format : string) (r : string)
| EvInput (prompt : string) (r : outcome string)
| EvVideoUrls (playlist_url : string) (r : outcome (list string)).

Definition trace : Type := list event.

(** Did the call of this entry return normally? *)
Definition ev_returned (ev : event) : bool :=
  match ev with
  | EvPrint _ => true
  | EvYouTube _ r => returned r
  | EvTitle _ r => returned r
  | EvHighestResolution _ r => returned r
  | EvDownload _ _ r => returned r
  | EvVideoFileClip _ r => returned r
  | EvWithoutAudio _ r => returned r
  | EvResize _ _ r => returned r
  | EvLoop _ _ r => returned r
  | EvSetPosition _ _ r => returned r
  | EvComposite _ _ r => returned r
  | EvSubclip _ _ _ r => returned r
  | EvWriteVideofile _ _ _ _ r => returned r
  | EvMakedirs _ _ r => returned r
  | EvNow _ _ => true
  | EvInput _ r => returned r
  | EvVideoUrls _ r => returned r
  end.

(** No call of the transcript raised. *)
Definition all_returned (evs : trace) : bool := forallb ev_returned evs.

(** The URLs the run tried to resolve, in order. *)
Definition fetched (evs : trace) : list string :=
  flat_map (fun ev => match ev with EvYouTube url _ => [url] | _ => [] end) evs.

(** The files rendered by [write_videofile] calls that returned, in order,
    each with the clip rendered into it. *)
Definition rendered (evs : trace) : list (string * Clip) :=
  flat_map (fun ev => match ev with
                      | EvWriteVideofile c path _ _ (Returned _) => [(path, c)]
                      | _ => []
                      end) evs.

(** The directories [os.makedirs] was called on. *)
Definition made_dirs (evs : trace) : list string :=
  flat_map (fun ev => match ev with EvMakedirs path _ _ => [path] | _ => [] end) evs.

(** The files the run tried to render (whether or not the call returned). *)
Definition render_calls (evs : trace) : list string :=
  flat_map (fun ev => match ev with
                      | EvWriteVideofile _ path _ _ _ => [path]
                      | _ => []
                      end) evs.

(** The windows [subclip] was called on. *)
Definition windows (evs : trace) : list (Z * Z) :=
  flat_map (fun ev => match ev with
                      | EvSubclip _ s e _ => [(s, e)]
                      | _ => []
                      end) evs.

(** The playlists that resolved, in order. *)
Definition resolved_playlists (evs : trace) : list (list string) :=
  flat_map (fun ev => match ev with
                      | EvVideoUrls _ (Returned urls) => [urls]
                      | _ => []
                      end) evs.

(** ** The monad

    A computation reads the transcript so far and answers with its outcome
    and the entries it adds.  A raised exception keeps what was done before
    it. *)
Definition M (A : Type) : Type := trace -> outcome A * trace.

Definition ret {A} (a : A) : M A := fun _ => (Returned a, []).

Definition raise {A} (e : PyException) : M A := fun _ => (Raised e, []).

Definition bind {A B} (m : M A) (f : A -> M B) : M B := fun h =>
  match m h with
  | (Returned a, e1) => let (r, e2) := f a (h ++ e1)%list in (r, (e1 ++ e2)%list)
  | (Raised e, e1) => (Raised e, e1)
  end.

(** [try: body except Exception as e: handler]. *)
Definition try_except {A} (body : M A) (handler : PyException -> M A) : M A :=
  fun h =>
    match body h with
    | (Returned a, e1) => (Returned a, e1)
    | (Raised e, e1) => let (r, e2) := handler e (h ++ e1)%list in (r, (e1 ++ e2)%list)
    end.

(** A call into a collaborator: ask the environment, log the answer. *)
Definition call {R} (oracle : trace -> outcome R) (log : outcome R -> event) : M R :=
  fun h => let r := oracle h in (r, [log r]).

(** A pure computation that may raise. *)
Definition lift {A} (r : outcome A) : M A := fun _ => (r, []).

Definition print (line : string) : M unit := fun _ => (Returned tt, [EvPrint line]).

(** [for x in xs: acc = body(x, acc)], for a loop that updates a local. *)
Fixpoint for_each {A S} (xs : list A) (acc : S) (body : A -> S -> M S) : M S :=
  match xs with
  | [] => ret acc
  | x :: rest => bind (body x acc) (fun acc' => for_each rest acc' body)
  end.

End Collaborators.

Arguments EvPrint {YT Stream Clip} line.
Arguments EvYouTube {YT Stream Clip} url r.
Arguments EvTitle {YT Stream Clip} yt r.
Arguments EvHighestResolution {YT Stream Clip} yt r.
Arguments EvDownload {YT Stream Clip} stream output_path r.
Arguments EvVideoFileClip {YT Stream Clip} path r.
Arguments EvWithoutAudio {YT Stream Clip} c r.
Arguments EvResize {YT Stream Clip} c width r.
Arguments EvLoop {YT Stream Clip} c duration r.
Arguments EvSetPosition {YT Stream Clip} c pos r.
Arguments EvComposite {YT Stream Clip} layers size r.
Arguments EvSubclip {YT Stream Clip} c t_start t_end r.
Arguments EvWriteVideofile {YT Stream Clip} c path codec fps r.
Arguments EvMakedirs {YT Stream Clip} path exist_ok r.
Arguments EvNow {YT Stream Clip} format r.
Arguments EvInput {YT Stream Clip} prompt r.
Arguments EvVideoUrls {YT Stream Clip} playlist_url r.
Arguments ev_returned {YT Stream Clip} ev.
Arguments all_returned {YT Stream Clip} evs.
Arguments fetched {YT Stream Clip} evs.
Arguments rendered {YT Stream Clip} evs.
Arguments made_dirs {YT Stream Clip} evs.
Arguments render_calls {YT Stream Clip} evs.
Arguments windows {YT Stream Clip} evs.
Arguments resolved_playlists {YT Stream Clip} evs.
Arguments ret {YT Stream Clip A} a _.
Arguments raise {YT Stream Clip A} e _.
Arguments bind {YT Stream Clip A B} m f _.
Arguments try_except {YT Stream Clip A} body handler _.
Arguments call {YT Stream Clip R} oracle log _.
Arguments lift {YT Stream Clip A} r _.
Arguments print {YT Stream Clip} line _.
Arguments for_each {YT Stream Clip A S} xs acc body _.

(** The environment: for each operation, what it answers given the
    transcript so far and its arguments.  The attributes of a clip are
    read off the clip. *)
Record Env {YT Stream Clip : Type} : Type := {
  (* pytubefix *)
  lib_YouTube : trace YT Stream Clip -> string -> outcome YT;
  lib_title : trace YT Stream Clip -> YT -> outcome string;
  lib_get_highest_resolution : trace YT Stream Clip -> YT -> outcome (option Stream);
  lib_download : trace YT Stream Clip -> Stream -> string -> outcome string;
  lib_video_urls : trace YT Stream Clip -> string -> outcome (list string);
  (* moviepy *)
  lib_VideoFileClip : trace YT Stream Clip -> string -> outcome Clip;
  lib_without_audio : trace YT Stream Clip -> Clip -> outcome Clip;
  lib_resize : trace YT Stream Clip -> Clip -> Z -> outcome Clip;
  lib_loop : trace YT Stream Clip -> Clip -> Q -> outcome Clip;
  lib_set_position : trace YT Stream Clip -> Clip -> string * string -> outcome Clip;
  lib_CompositeVideoClip : trace YT Stream Clip -> list Clip -> Z * Z -> outcome Clip;
  lib_subclip : trace YT Stream Clip -> Clip -> Z -> Z -> outcome Clip;
  lib_write_videofile : trace YT Stream Clip -> Clip -> string -> string -> Z -> outcome unit;
  clip_w : Clip -> Z;
  clip_h : Clip -> Z;
  clip_duration : Clip -> Q;
  (* the source files whose sound track plays in the clip *)
  clip_audio : Clip -> list string;
  (* os, datetime, builtins *)
  os_makedirs : trace YT Stream Clip -> string -> bool -> outcome unit;
  datetime_now_strftime : trace YT Stream Clip -> string -> string;
  builtin_input : trace YT Stream Clip -> string -> outcome string
}.

Declare Scope py_scope.
Delimit Scope py_scope with py.
Notation "x <- c1 ;; c2" := (bind c1 (fun x => c2))
  (at level 61, c1 at next level, right associativity) : py_scope.
Notation "c1 ;; c2" := (bind c1 (fun _ => c2))
  (at level 61, right associativity) : py_scope.
Open Scope py_scope.

(** ** The script *)

Section Script.

Context {YT Stream Clip : Type} (E : @Env YT Stream Clip).

Local Abbreviation M := (M YT Stream Clip).

(** *** Calls into the collaborators *)

Definition YouTube (url : string) : M YT :=
  call (fun h => lib_YouTube E h url) (EvYouTube url).

Definition title (yt : YT) : M string :=
  call (fun h => lib_title E h yt) (EvTitle yt).

(** [yt.streams.get_highest_resolution()], which may answer [None]. *)
Definition get_highest_resolution (yt : YT) : M (option Stream) :=
  call (fun h => lib_get_highest_resolution E h yt) (EvHighestResolution yt).

(** [stream.download(output_path=...)]; on [None] the attribute lookup
    raises. *)
Definition download (stream : option Stream) (output_path : string) : M string :=
  match stream with
  | Some s => call (fun h => lib_download E h s output_path) (EvDownload s output_path)
  | None => raise (mkExc "AttributeError"
                         "'NoneType' object has no attribute 'download'")
  end.

(** [Playlist(url).video_urls]: the property resolves the playlist on its
    first read and caches the list. *)
Definition video_urls (playlist_url : string) : M (list string) :=
  call (fun h => lib_video_urls E h playlist_url) (EvVideoUrls playlist_url).

Definition VideoFileClip (path : string) : M Clip :=
  call (fun h => lib_VideoFileClip E h path) (EvVideoFileClip path).

Definition without_audio (c : Clip) : M Clip :=
  call (fun h => lib_without_audio E h c) (EvWithoutAudio c).

Definition resize (c : Clip) (width : Z) : M Clip :=
  call (fun h => lib_resize E h c width) (EvResize c width).

Definition loop (c : Clip) (duration : Q) : M Clip :=
  call (fun h => lib_loop E h c duration) (EvLoop c duration).

Definition set_position (c : Clip) (pos : string * string) : M Clip :=
  call (fun h => lib_set_position E h c pos) (EvSetPosition c pos).

Definition CompositeVideoClip (layers : list Clip) (size : Z * Z) : M Clip :=
  call (fun h => lib_CompositeVideoClip E h layers size) (EvComposite layers size).

Definition subclip (c : Clip) (t_start t_end : Z) : M Clip :=
  call (fun h => lib_subclip E h c t_start t_end) (EvSubclip c t_start t_end).

Definition write_videofile (c : Clip) (path codec : string) (fps : Z) : M unit :=
  call (fun h => lib_write_videofile E h c path codec fps)
       (EvWriteVideofile c path codec fps).

Definition makedirs (path : string) (exist_ok : bool) : M unit :=
  call (fun h => os_makedirs E h path exist_ok) (EvMakedirs path exist_ok).

(** [datetime.now().strftime(format)]. *)
Definition now_strftime (format : string) : M string :=
  fun h => let r := datetime_now_strftime E h format in
           (Returned r, [EvNow format r]).

Definition input (prompt : string) : M string :=
  call (fun h => builtin_input E h prompt) (EvInput prompt).

(** *** Helper: download a YouTube video *)
Definition download_video (url output_folder : string) : M (option string) :=
  try_except
    (yt <- YouTube url ;;
     t <- title yt ;;
     print ("Downloading video: " ++ t) ;;
     stream <- get_highest_resolution yt ;;
     video_path <- download stream output_folder ;;
     print ("Downloaded: " ++ video_path) ;;
     ret (Some video_path))
    (fun e =>
       print ("Error downloading video: " ++ exc_msg e) ;;
       ret None).

(** *** Helper: create a unique output folder *)
Definition create_output_folder (base_folder : string) : M string :=
  timestamp <- now_strftime "%Y%m%d_%H%M%S" ;;
  let folder_name := base_folder ++ "_" ++ timestamp in
  makedirs folder_name true ;;
  ret folder_name.

(** *** Helper: adjust video durations *)
Definition adjust_video_durations (top_video bottom_video : Clip)
  : M (option Clip * option Clip) :=
  try_except
    (bottom_video <-
       (if Qlt_bool (clip_duration E bottom_video) (clip_duration E top_video)
        then
          print "Bottom video is shorter than top video. Looping the bottom video to match duration." ;;
          loop bottom_video (clip_duration E top_video)
        else ret bottom_video) ;;
     ret (Some top_video, Some bottom_video))
    (fun e =>
       print ("Error adjusting durations: " ++ exc_msg e) ;;
       ret (None, None)).

(** *** Helper: combine videos with one on top of the other *)
Definition stack_videos (top_video_path bottom_video_path output_path : string)
  : M (option string) :=
  try_except
    (top_clip <- VideoFileClip top_video_path ;;
     bottom_clip <- VideoFileClip bottom_video_path ;;
     bottom_clip <- without_audio bottom_clip ;;
     let width := Z.min (clip_w E top_clip) (clip_w E bottom_clip) in
     top_clip <- resize top_clip width ;;
     bottom_clip <- resize bottom_clip width ;;
     adjusted <- adjust_video_durations top_clip bottom_clip ;;
     let (top_clip, bottom_clip) := adjusted in
     if negb (truthy_obj top_clip) || negb (truthy_obj bottom_clip)
     then
       print "Error adjusting video durations. Skipping this pair." ;;
       ret None
     else
       match top_clip, bottom_clip with
       | Some top_clip, Some bottom_clip =>
           top_layer <- set_position top_clip ("center", "top") ;;
           bottom_layer <- set_position bottom_clip ("center", "bottom") ;;
           stacked_clip <-
             CompositeVideoClip [top_layer; bottom_layer]
               (width, clip_h E top_clip + clip_h E bottom_clip) ;;
           write_videofile stacked_clip output_path "libx264" 30 ;;
           print ("Combined video saved to " ++ output_path) ;;
           ret (Some output_path)
       | _, _ =>
           (* not reached: both are clips here *)
           raise (mkExc "AttributeError"
                        "'NoneType' object has no attribute 'set_position'")
       end)
    (fun e =>
       print ("Error combining videos: " ++ exc_msg e) ;;
       ret None).

(** *** Helper: split video into chunks of [chunk_duration] seconds *)
Definition split_video (video_path output_folder : string) (chunk_duration : Z)
  : M (list string) :=
  try_except
    (clip <- VideoFileClip video_path ;;
     let total_duration := py_int (clip_duration E clip) in
     starts <- lift (py_range 0 total_duration chunk_duration) ;;
     for_each starts []
       (fun start_time chunks =>
          let end_time := Z.min (start_time + chunk_duration) total_duration in
          chunk <- subclip clip start_time end_time ;;
          let chunk_path :=
            path_join output_folder
              ("chunk_" ++ str_Z (start_time / chunk_duration + 1) ++ ".mp4") in
          write_videofile chunk chunk_path "libx264" 30 ;;
          let chunks := (chunks ++ [chunk_path])%list in
          print ("Saved chunk: " ++ chunk_path) ;;
          ret chunks))
    (fun e =>
       print ("Error splitting video: " ++ exc_msg e) ;;
       ret []).

(** *** Process a single pair of videos *)
Definition process_video_pair (top_video_url bottom_video_url output_folder : string)
  : M unit :=
  top_video_path <- download_video top_video_url output_folder ;;
  bottom_video_path <- download_video bottom_video_url output_folder ;;
  if negb (truthy_path top_video_path) || negb (truthy_path bottom_video_path)
  then
    print "Failed to download one or both videos. Skipping." ;;
    ret tt
  else
    match top_video_path, bottom_video_path with
    | Some top_video_path, Some bottom_video_path =>
        let combined_video_path := path_join output_folder "combined_video.mp4" in
        stacked_video_path <-
          stack_videos top_video_path bottom_video_path combined_video_path ;;
        (* [if not stacked_video_path]: [None] or the empty string *)
        match stacked_video_path with
        | Some stacked_video_path =>
            if (stacked_video_path =? "")%string
            then print "Failed to combine videos. Skipping." ;; ret tt
            else
              let chunks_folder := path_join output_folder "chunks" in
              makedirs chunks_folder true ;;
              split_video stacked_video_path chunks_folder 75 ;;
              ret tt
        | None => print "Failed to combine videos. Skipping." ;; ret tt
        end
    | _, _ =>
        (* not reached: both are paths here *)
        ret tt
    end.

(** *** Process videos manually *)
Definition process_single_video : M unit :=
  output_folder <- create_output_folder "output" ;;
  top_video_url <- input "Enter the URL for the top video: " ;;
  let top_video_url := strip top_video_url in
  bottom_video_url <- input "Enter the URL for the bottom video: " ;;
  let bottom_video_url := strip bottom_video_url in
  process_video_pair top_video_url bottom_video_url output_folder.

(** *** Process playlists *)
Definition process_playlists : M unit :=
  output_folder <- create_output_folder "output" ;;
  top_playlist_url <- input "Enter the URL for the top playlist: " ;;
  let top_playlist_url := strip top_playlist_url in
  bottom_playlist_url <- input "Enter the URL for the bottom playlist: " ;;
  let bottom_playlist_url := strip bottom_playlist_url in
  top_urls <- video_urls top_playlist_url ;;
  print ("Found " ++ str_Z (Z.of_nat (List.length top_urls)) ++ " videos in top playlist.") ;;
  bottom_urls <- video_urls bottom_playlist_url ;;
  print ("Found " ++ str_Z (Z.of_nat (List.length bottom_urls)) ++ " videos in bottom playlist.") ;;
  for_each (combine top_urls bottom_urls) tt
    (fun pair _ =>
       let (top_url, bottom_url) := pair in
       print ("Processing pair: Top = " ++ top_url ++ ", Bottom = " ++ bottom_url) ;;
       process_video_pair top_url bottom_url output_folder).

(** *** Main function with menu

    The [while True] loop, unrolled at most [fuel] times: [None] says that
    the loop had not ended when the fuel ran out. *)
Fixpoint main (fuel : nat) : M (option unit) :=
  match fuel with
  | O => ret None
  | S fuel =>
      print (String "010" "--- YouTube Video Processor ---") ;;
      print "1. Process a single pair of videos" ;;
      print "2. Process playlists" ;;
      print "3. Exit" ;;
      choice <- input "Select an option (1/2/3): " ;;
      let choice := strip choice in
      if (choice =? "1")%string then
        process_single_video ;;
        main fuel
      else if (choice =? "2")%string then
        process_playlists ;;
        main fuel
      else if (choice =? "3")%string then
        print "Exiting." ;;
        ret (Some tt)
      else
        print "Invalid choice. Please try again." ;;
        main fuel
  end.

End Script.

(** ** A simulated environment

    A small executable stand-in for the collaborators, used to run the script
    on concrete inputs.  A [YouTube] object and a stream are named by their
    URL; a clip carries its attributes. *)

Module Sim.

Record clip : Type := mkClip {
  w : Z;
  h : Z;
  duration : Q;
  audio : list string
}.

(** What a run is played against. *)
Record scenario : Type := {
  (* frame size and duration of the file at a path *)
  media : string -> Z * Z * Q;
  (* URLs that do not resolve *)
  unreachable : list string;
  (* paths that cannot be rendered to *)
  unwritable : list string;
  (* the videos of a playlist *)
  playlists : string -> list string;
  (* what the user types at a prompt *)
  typed : string -> string
}.

Definition mem (x : string) (l : list string) : bool :=
  existsb (String.eqb x) l.

Definition Qmax (x y : Q) : Q := if Qlt_bool x y then y else x.

Definition env (s : scenario) : @Env string string clip := {|
  lib_YouTube := fun _ url =>
    if mem url (unreachable s)
    then Raised (mkExc "RegexMatchError" ("could not resolve " ++ url))
    else Returned url;
  lib_title := fun _ yt => Returned ("Video " ++ yt);
  lib_get_highest_resolution := fun _ yt => Returned (Some yt);
  lib_download := fun _ stream output_path =>
    Returned (path_join output_path (stream ++ ".mp4"));
  lib_video_urls := fun _ url => Returned (playlists s url);
  lib_VideoFileClip := fun _ path =>
    let '(width, height, d) := media s path in
    Returned (mkClip width height d [path]);
  lib_without_audio := fun _ c => Returned (mkClip (w c) (h c) (duration c) []);
  lib_resize := fun _ c width =>
    Returned (mkClip width (h c * width / w c) (duration c) (audio c));
  lib_loop := fun _ c d =>
    if Qeq_bool (duration c) 0
    then Raised (mkExc "ZeroDivisionError" "float modulo")
    else Returned (mkClip (w c) (h c) d (audio c));
  lib_set_position := fun _ c _ => Returned c;
  lib_CompositeVideoClip := fun _ layers size =>
    Returned (mkClip (fst size) (snd size)
                     (fold_right Qmax 0%Q (map duration layers))
                     (List.concat (map audio layers)));
  lib_subclip := fun _ c t_start t_end =>
    Returned (mkClip (w c) (h c) (inject_Z (t_end - t_start)) (audio c));
  lib_write_videofile := fun _ _ path _ _ =>
    if mem path (unwritable s)
    then Raised (mkExc "OSError" "No space left on device")
    else Returned tt;
  clip_w := w;
  clip_h := h;
  clip_duration := duration;
  clip_audio := audio;
  os_makedirs := fun _ _ _ => Returned tt;
  datetime_now_strftime := fun _ _ => "20240101_120000";
  builtin_input := fun _ prompt => Returned (typed s prompt)
|}.

(** Every file is a 1280x720 clip of 200 seconds, except a narrow one, a
    short one, one of 200.5 seconds and one of half a second. *)
Definition some_media (path : string) : Z * Z * Q :=
  if (path =? "out/narrow.mp4")%string then (640, 480, 40 # 1)
  else if (path =? "out/short.mp4")%string then (1280, 720, 40 # 1)
  else if (path =? "odd.mp4")%string then (1280, 720, 401 # 2)
  else if (path =? "blip.mp4")%string then (1280, 720, 1 # 2)
  else (1280, 720, 200 # 1).

Definition some_playlists (url : string) : list string :=
  if (url =? "top-list")%string then ["t1"; "t2"; "t3"; "t4"; "t5"]
  else ["b1"; "b2"; "b3"].

Definition some_typed (prompt : string) : string :=
  if (prompt =? "Enter the URL for the top playlist: ")%string then " top-list "
  else if (prompt =? "Enter the URL for the bottom playlist: ")%string then "bottom-list"
  else "video".

(** Nothing fails. *)
Definition fine : scenario := {|
  media := some_media;
  unreachable := [];
  unwritable := [];
  playlists := some_playlists;
  typed := some_typed
|}.

(** The second chunk cannot be rendered. *)
Definition disk_full : scenario := {|
  media := some_media;
  unreachable := [];
  unwritable := ["out/chunks/chunk_2.mp4"];
  playlists := some_playlists;
  typed := some_typed
|}.

(** One URL does not resolve. *)
Definition dead_link : scenario := {|
  media := some_media;
  unreachable := ["gone"];
  unwritable := [];
  playlists := some_playlists;
  typed := some_typed
|}.

(** At the menu the user asks to exit. *)
Definition leaving : scenario := {|
  media := some_media;
  unreachable := [];
  unwritable := [];
  playlists := some_playlists;
  typed := fun prompt =>
    if (prompt =? "Select an option (1/2/3): ")%string then " 3 " else "video"
|}.

(** At the menu the user keeps typing something else. *)
Definition fumbling : scenario := {|
  media := some_media;
  unreachable := [];
  unwritable := [];
  playlists := some_playlists;
  typed := fun prompt =>
    if (prompt =? "Select an option (1/2/3): ")%string then "9" else "video"
|}.

(** The clip cannot be composited. *)
Definition no_composite : scenario := {|
  media := some_media;
  unreachable := [];
  unwritable := ["out/combined_video.mp4"];
  playlists := some_playlists;
  typed := some_typed
|}.

(** The same collaborators, but the playlists are private and do not
    resolve. *)
Definition env_private_playlists (s : scenario) : @Env string string clip := {|
  lib_YouTube := lib_YouTube (env s);
  lib_title := lib_title (env s);
  lib_get_highest_resolution := lib_get_highest_resolution (env s);
  lib_download := lib_download (env s);
  lib_video_urls := fun _ _ => Raised (mkExc "KeyError" "'list'");
  lib_VideoFileClip := lib_VideoFileClip (env s);
  lib_without_audio := lib_without_audio (env s);
  lib_resize := lib_resize (env s);
  lib_loop := lib_loop (env s);
  lib_set_position := lib_set_position (env s);
  lib_CompositeVideoClip := lib_CompositeVideoClip (env s);
  lib_subclip := lib_subclip (env s);
  lib_write_videofile := lib_write_videofile (env s);
  clip_w := w;
  clip_h := h;
  clip_duration := duration;
  clip_audio := audio;
  os_makedirs := os_makedirs (env s);
  datetime_now_strftime := datetime_now_strftime (env s);
  builtin_input := builtin_input (env s)
|}.

End Sim.

(** ** Vocabulary of the properties *)

Open Scope list_scope.

(** The least [n] with [T <= n * d], for [d > 0]: the ceiling of [T / d]. *)
Definition ceil_div (T d : Z) : Z := - ((- T) / d).

(** The path of the [i]-th chunk file. *)
Definition chunk_path (output_folder : string) (i : Z) : string :=
  path_join output_folder ("chunk_" ++ str_Z i ++ ".mp4")%string.

(** The window of the [i]-th chunk, for chunks of [d] seconds of a video of
    [T] whole seconds. *)
Definition window (d T i : Z) : Z * Z := ((i - 1) * d, Z.min (i * d) T).

(** The indices [1 .. n]. *)
Definition indices (n : Z) : list Z := map Z.of_nat (seq 1 (Z.to_nat n)).

(** The windows [ws] follow one another from [from] to [to], each one
    non-empty and starting where the one before it ends. *)
Fixpoint chain (from : Z) (ws : list (Z * Z)) (to : Z) : Prop :=
  match ws with
  | [] => from = to
  | (s, e) :: rest => s = from /\ s < e /\ chain e rest to
  end.

Section Vocabulary.

Context {YT Stream Clip : Type} (E : @Env YT Stream Clip).

(** The body of the loop of [split_video], for the opened [clip] and
    [T = int(clip.duration)]. *)
Definition split_body (clip : Clip) (output_folder : string) (d T : Z)
  (start_time : Z) (chunks : list string) : M YT Stream Clip (list string) :=
  let end_time := Z.min (start_time + d) T in
  chunk <- subclip E clip start_time end_time ;;
  let chunk_path :=
    path_join output_folder
      ("chunk_" ++ str_Z (start_time / d + 1) ++ ".mp4")%string in
  write_videofile E chunk chunk_path "libx264" 30 ;;
  let chunks := chunks ++ [chunk_path] in
  print ("Saved chunk: " ++ chunk_path)%string ;;
  ret chunks.

(** What the [i]-th chunk leaves in the transcript when nothing raises:
    the window is cut, the cut is rendered, a line is printed. *)
Definition chunk_events (clip : Clip) (output_folder : string) (d T : Z)
  (ic : Z * Clip) : trace YT Stream Clip :=
  let (i, chunk) := ic in
  [EvSubclip clip (fst (window d T i)) (snd (window d T i)) (Returned chunk);
   EvWriteVideofile chunk (chunk_path output_folder i) "libx264" 30 (Returned tt);
   EvPrint ("Saved chunk: " ++ chunk_path output_folder i)%string].

(** The body of the loop of [process_playlists]. *)
Definition pair_body (output_folder : string) (pair : string * string) (_ : unit)
  : M YT Stream Clip unit :=
  let (top_url, bottom_url) := pair in
  print ("Processing pair: Top = " ++ top_url ++ ", Bottom = " ++ bottom_url)%string ;;
  process_video_pair E top_url bottom_url output_folder.

(** A transcript without URL or playlist resolutions. *)
Definition offline (evs : trace YT Stream Clip) : Prop :=
  fetched evs = [] /\ resolved_playlists evs = [].

(** *** What the properties assume of moviepy

    [loop(duration=d)] sets the duration of the clip it returns to [d]
    (for a non-zero [d]). *)
Definition loop_sets_duration : Prop :=
  forall h c d c',
    (0 < d)%Q -> lib_loop E h c d = Returned c' -> clip_duration E c' = d.

(** [resize(width=w)] returns a clip of width [w]; a composite has the size
    it is given; the other operations keep the width. *)
Definition width_contract : Prop :=
  (forall h c c',
      lib_without_audio E h c = Returned c' -> clip_w E c' = clip_w E c) /\
  (forall h c width c',
      lib_resize E h c width = Returned c' -> clip_w E c' = width) /\
  (forall h c d c',
      lib_loop E h c d = Returned c' -> clip_w E c' = clip_w E c) /\
  (forall h c pos c',
      lib_set_position E h c pos = Returned c' -> clip_w E c' = clip_w E c) /\
  (forall h layers size c',
      lib_CompositeVideoClip E h layers size = Returned c' ->
      clip_w E c' = fst size).

(** [without_audio()] returns a silent clip; a composite plays the sound of
    its layers; the other operations keep the sound sources. *)
Definition audio_contract : Prop :=
  (forall h c c',
      lib_without_audio E h c = Returned c' -> clip_audio E c' = []) /\
  (forall h c width c',
      lib_resize E h c width = Returned c' -> clip_audio E c' = clip_audio E c) /\
  (forall h c d c',
      lib_loop E h c d = Returned c' -> clip_audio E c' = clip_audio E c) /\
  (forall h c pos c',
      lib_set_position E h c pos = Returned c' -> clip_audio E c' = clip_audio E c) /\
  (forall h layers size c',
      lib_CompositeVideoClip E h layers size = Returned c' ->
      clip_audio E c' = List.concat (map (clip_audio E) layers)).

(** *** Footprints: what a function may leave in the transcript *)

(** Of [download_video]: it resolves [url] and downloads into
    [output_folder]. *)
Definition download_footprint (url output_folder : string)
  (ev : event YT Stream Clip) : Prop :=
  match ev with
  | EvPrint _ | EvTitle _ _ | EvHighestResolution _ _ => True
  | EvYouTube u _ => u = url
  | EvDownload _ folder _ => folder = output_folder
  | _ => False
  end.

(** Of [stack_videos]: it opens the two files, works on clips in memory and
    renders to [output_path] only, with libx264 at 30 frames a second. *)
Definition stack_footprint (top_path bottom_path output_path : string)
  (ev : event YT Stream Clip) : Prop :=
  match ev with
  | EvPrint _ | EvWithoutAudio _ _ | EvResize _ _ _ | EvLoop _ _ _
  | EvSetPosition _ _ _ | EvComposite _ _ _ => True
  | EvVideoFileClip path _ => path = top_path \/ path = bottom_path
  | EvWriteVideofile _ path codec fps _ =>
      path = output_path /\ codec = "libx264"%string /\ fps = 30
  | _ => False
  end.

(** Of [split_video]: it opens the file, cuts it and renders to files
    [chunk_<i>.mp4], [i >= 1], of [output_folder] only, with libx264 at 30
    frames a second. *)
Definition split_footprint (video_path output_folder : string)
  (ev : event YT Stream Clip) : Prop :=
  match ev with
  | EvPrint _ | EvSubclip _ _ _ _ => True
  | EvVideoFileClip path _ => path = video_path
  | EvWriteVideofile _ path codec fps _ =>
      (exists i, 1 <= i /\ path = chunk_path output_folder i) /\
      codec = "libx264"%string /\ fps = 30
  | _ => False
  end.

(** Of [process_video_pair]: the two downloads into [output_folder], the
    composite at [combined_video.mp4], the [chunks] folder and its chunks.
    No prompt, no playlist, no clock. *)
Definition pair_footprint (top_url bottom_url output_folder : string)
  (ev : event YT Stream Clip) : Prop :=
  match ev with
  | EvPrint _ | EvTitle _ _ | EvHighestResolution _ _ | EvVideoFileClip _ _
  | EvWithoutAudio _ _ | EvResize _ _ _ | EvLoop _ _ _ | EvSetPosition _ _ _
  | EvComposite _ _ _ | EvSubclip _ _ _ _ => True
  | EvYouTube u _ => u = top_url \/ u = bottom_url
  | EvDownload _ folder _ => folder = output_folder
  | EvWriteVideofile _ path codec fps _ =>
      (path = path_join output_folder "combined_video.mp4" \/
       exists i, 1 <= i /\
                 path = chunk_path (path_join output_folder "chunks") i) /\
      codec = "libx264"%string /\ fps = 30
  | EvMakedirs path exist_ok _ =>
      path = path_join output_folder "chunks" /\ exist_ok = true
  | EvNow _ _ | EvInput _ _ | EvVideoUrls _ _ => False
  end.

(** Of a whole run (single pair or playlists) working in [run_folder]: the
    folder is [output_<timestamp>], and every download, render and directory
    lies in it. *)
Definition run_footprint (run_folder : string) (ev : event YT Stream Clip) : Prop :=
  match ev with
  | EvPrint _ | EvYouTube _ _ | EvTitle _ _ | EvHighestResolution _ _
  | EvVideoFileClip _ _ | EvWithoutAudio _ _ | EvResize _ _ _ | EvLoop _ _ _
  | EvSetPosition _ _ _ | EvComposite _ _ _ | EvSubclip _ _ _ _
  | EvVideoUrls _ _ => True
  | EvDownload _ folder _ => folder = run_folder
  | EvWriteVideofile _ path codec fps _ =>
      (path = path_join run_folder "combined_video.mp4" \/
       exists i, 1 <= i /\
                 path = chunk_path (path_join run_folder "chunks") i) /\
      codec = "libx264"%string /\ fps = 30
  | EvMakedirs path exist_ok _ =>
      (path = run_folder \/ path = path_join run_folder "chunks") /\
      exist_ok = true
  | EvNow format stamp =>
      format = "%Y%m%d_%H%M%S"%string /\ run_folder = ("output_" ++ stamp)%string
  | EvInput prompt _ =>
      In prompt ["Enter the URL for the top video: ";
                 "Enter the URL for the bottom video: ";
                 "Enter the URL for the top playlist: ";
                 "Enter the URL for the bottom playlist: "]%string
  end.

(** Of the loop of [split_video] over [starts]. *)
Definition chunks_footprint (output_folder : string) (d : Z) (starts : list Z)
  (ev : event YT Stream Clip) : Prop :=
  match ev with
  | EvPrint _ | EvSubclip _ _ _ _ => True
  | EvWriteVideofile _ path codec fps _ =>
      (exists s, In s starts /\ path = chunk_path output_folder (s / d + 1)) /\
      codec = "libx264"%string /\ fps = 30
  | _ => False
  end.

(** *** More observations of a transcript *)

(** What the user answered at the prompts for URLs, in order. *)
Definition typed_urls (evs : trace YT Stream Clip) : list string :=
  flat_map (fun ev => match ev with
                      | EvInput _ (Returned answer) => [answer]
                      | _ => []
                      end) evs.

(** The menu choices of the user (stripped), in order. *)
Definition choices (evs : trace YT Stream Clip) : list string :=
  flat_map (fun ev => match ev with
                      | EvInput prompt (Returned answer) =>
                          if (prompt =? "Select an option (1/2/3): ")%string
                          then [strip answer] else []
                      | _ => []
                      end) evs.

(** The folders the run downloaded into. *)
Definition download_dirs (evs : trace YT Stream Clip) : list string :=
  flat_map (fun ev => match ev with
                      | EvDownload _ folder _ => [folder]
                      | _ => []
                      end) evs.

(** The clips handed to [CompositeVideoClip], call by call. *)
Definition composited (evs : trace YT Stream Clip) : list (list Clip) :=
  flat_map (fun ev => match ev with
                      | EvComposite layers _ _ => [layers]
                      | _ => []
                      end) evs.

(** What [stack_videos] needs of durations: a file opens as a clip of
    non-negative duration; [without_audio], [resize] and [set_position] keep
    the duration; [loop] sets it. *)
Definition duration_contract : Prop :=
  (forall h path c,
      lib_VideoFileClip E h path = Returned c -> (0 <= clip_duration E c)%Q) /\
  (forall h c c',
      lib_without_audio E h c = Returned c' ->
      clip_duration E c' = clip_duration E c) /\
  (forall h c width c',
      lib_resize E h c width = Returned c' ->
      clip_duration E c' = clip_duration E c) /\
  (forall h c pos c',
      lib_set_position E h c pos = Returned c' ->
      clip_duration E c' = clip_duration E c) /\
  loop_sets_duration.

End Vocabulary.

(** ** Proof automation *)

(** Unfold the monad and the calls into the collaborators. *)
Ltac unfold_calls :=
  cbv [YouTube title get_highest_resolution download video_urls VideoFileClip
       without_audio resize loop set_position CompositeVideoClip subclip
       write_videofile makedirs now_strftime input
       try_except bind call lift print ret raise] in *.

(** Split on the next answer of the environment, or the next test. *)
Ltac case_call :=
  match goal with
  | |- context [match ?x with Returned _ => _ | Raised _ => _ end] =>
      destruct x eqn:?
  | |- context [match ?x with Some _ => _ | None => _ end] =>
      destruct x eqn:?
  | |- context [if ?x then _ else _] =>
      destruct x eqn:?
  end.

(** Follow a run to its end, dropping the branches that contradict it. *)
Ltac case_run :=
  repeat (case_call; cbn [app truthy_obj negb orb]; try (intro; discriminate)).

(** Evaluate the observations of a transcript. *)
Ltac observe :=
  cbn [all_returned forallb ev_returned returned andb In app
       fetched rendered made_dirs render_calls windows resolved_playlists
       flat_map fst snd] in *.

(** Finish a run that ended in a handler or a final print. *)
Ltac finish_run H :=
  unfold bind, print, ret in H; cbv beta iota zeta in H; injection H as <- <-.

(** ** Arithmetic *)

Lemma Qlt_bool_iff (x y : Q) : Qlt_bool x y = true <-> (x < y)%Q.
Proof. unfold Qlt_bool, Qlt. apply Z.ltb_lt. Qed.

Lemma py_int_floor (x : Q) :
  (0 <= x)%Q -> (inject_Z (py_int x) <= x)%Q /\ (x < inject_Z (py_int x + 1))%Q.
Proof.
  destruct x as [n d]. unfold py_int, Qle, Qlt. simpl. intros Hn.
  assert (Hn' : 0 <= n) by lia.
  rewrite Z.quot_div_nonneg by lia.
  pose proof (Z.div_mod n (Zpos d) ltac:(lia)) as Hdm.
  pose proof (Z.mod_pos_bound n (Zpos d) ltac:(lia)) as Hb.
  split; nia.
Qed.

Lemma py_int_nonneg (x : Q) : (0 <= x)%Q -> 0 <= py_int x.
Proof.
  destruct x as [n d]. unfold py_int, Qle. simpl. intros Hn.
  apply Z.quot_pos; lia.
Qed.

Lemma ceil_div_range (T d : Z) :
  0 < d -> Z.to_nat (range_len 0 T d) = Z.to_nat (ceil_div T d).
Proof.
  intros Hd. unfold range_len, ceil_div.
  destruct (0 <? d) eqn:H0; [| apply Z.ltb_ge in H0; lia].
  pose proof (Z.div_mod (- T) d ltac:(lia)) as Hq'.
  pose proof (Z.mod_pos_bound (- T) d Hd) as Hb'.
  destruct (0 <? T) eqn:H1.
  - apply Z.ltb_lt in H1.
    rewrite Z.sub_0_r.
    pose proof (Z.div_mod (T - 1) d ltac:(lia)) as Hq.
    pose proof (Z.mod_pos_bound (T - 1) d Hd) as Hb.
    f_equal. nia.
  - apply Z.ltb_ge in H1.
    assert (- (- T / d) <= 0) by nia.
    lia.
Qed.

Lemma ceil_div_spec (T d : Z) :
  0 < d -> (ceil_div T d - 1) * d < T <= ceil_div T d * d.
Proof.
  intros Hd. unfold ceil_div.
  pose proof (Z.div_mod (- T) d ltac:(lia)) as Hq.
  pose proof (Z.mod_pos_bound (- T) d Hd) as Hb.
  nia.
Qed.

(** For a positive step, [range(0, T, d)] is [0, d, 2d, ...], one start per
    chunk. *)
Lemma py_range_chunks (T d : Z) :
  0 < d ->
  py_range 0 T d =
  Returned (map (fun i => (Z.of_nat i - 1) * d) (seq 1 (Z.to_nat (ceil_div T d)))).
Proof.
  intros Hd. unfold py_range.
  destruct (d =? 0) eqn:H0; [apply Z.eqb_eq in H0; lia |].
  rewrite ceil_div_range by assumption.
  rewrite <- seq_shift, map_map. f_equal.
  apply map_ext. intros k. lia.
Qed.

(** Whatever the step, the starts of [range(0, T, d)] lie in [0, T). *)
Lemma py_range_bounds (T d : Z) starts :
  0 <= T -> py_range 0 T d = Returned starts ->
  forall s, In s starts -> 0 < d /\ 0 <= s < T.
Proof.
  intros HT Hrange s Hin. unfold py_range in Hrange.
  destruct (d =? 0) eqn:H0; [discriminate |]. apply Z.eqb_neq in H0.
  inversion Hrange; subst; clear Hrange.
  apply in_map_iff in Hin. destruct Hin as (k & Hs & Hk).
  apply in_seq in Hk. unfold range_len in Hk.
  destruct (0 <? d) eqn:Hd.
  - apply Z.ltb_lt in Hd.
    destruct (0 <? T) eqn:H1; [| simpl in Hk; lia].
    apply Z.ltb_lt in H1. rewrite Z.sub_0_r in Hk.
    pose proof (Z.mul_div_le (T - 1) d Hd) as Hle.
    assert (0 <= (T - 1) / d) by (apply Z.div_pos; lia).
    assert (Z.of_nat k <= (T - 1) / d) by lia.
    split; [assumption |]. subst s. nia.
  - destruct (T <? 0) eqn:H1; [apply Z.ltb_lt in H1; lia |].
    simpl in Hk. lia.
Qed.

(** [zip] pairs position by position and stops with the shorter list. *)
Lemma firstn_combine_nth (tops bottoms : list string) :
  forall k,
    (k <= Nat.min (List.length tops) (List.length bottoms))%nat ->
    flat_map (fun p : string * string => [fst p; snd p])
             (firstn k (combine tops bottoms)) =
    flat_map (fun i => [nth i tops ""%string; nth i bottoms ""%string]) (seq 0 k).
Proof.
  revert bottoms.
  induction tops as [| t ts IH]; intros bottoms k Hk.
  - cbn in Hk. assert (k = 0)%nat by lia. subst. reflexivity.
  - destruct bottoms as [| b bs].
    + cbn in Hk. assert (k = 0)%nat by lia. subst. reflexivity.
    + destruct k as [| k]; [reflexivity |].
      cbn [combine firstn flat_map seq fst snd nth app List.length] in *.
      rewrite IH by lia.
      rewrite <- seq_shift, !flat_map_concat_map, map_map. reflexivity.
Qed.

(** ** Properties of the script *)

Section Properties.

Context {YT Stream Clip : Type} (E : @Env YT Stream Clip).

Lemma all_returned_app (a b : trace YT Stream Clip) :
  all_returned (a ++ b) = all_returned a && all_returned b.
Proof. apply forallb_app. Qed.

Lemma offline_app (a b : trace YT Stream Clip) :
  offline a -> offline b -> offline (a ++ b).
Proof.
  unfold offline, fetched, resolved_playlists. intros [Ha Ha'] [Hb Hb'].
  rewrite !flat_map_app, Ha, Ha', Hb, Hb'. auto.
Qed.

(** *** download_video *)

(** C5. Whatever the environment answers, [download_video] returns
    normally: no exception leaves it.  When a call raised during
    resolution, stream selection or download, or when no stream was
    selected, it returns [None]. *)
Theorem download_video_catches_failures :
  forall (h : trace YT Stream Clip) url output_folder,
  exists p evs,
    download_video E url output_folder h = (Returned p, evs) /\
    (all_returned evs = false -> p = None) /\
    (forall yt, In (EvHighestResolution yt (Returned None)) evs -> p = None).
Proof.
  intros h url output_folder.
  unfold download_video. unfold_calls.
  repeat (case_call; cbn [app]).
  all: eexists; eexists; (split; [reflexivity |]).
  all: observe; split; [congruence |].
  all: intros yt Hin; repeat (destruct Hin as [Hin | Hin]; try congruence).
  all: try contradiction.
Qed.

(** A download resolves its URL and nothing else; it renders nothing and
    creates no directory. *)
Lemma download_video_quiet :
  forall (h : trace YT Stream Clip) url output_folder,
  exists p evs,
    download_video E url output_folder h = (Returned p, evs) /\
    fetched evs = [url] /\ resolved_playlists evs = [] /\
    render_calls evs = [] /\ made_dirs evs = [].
Proof.
  intros h url output_folder.
  unfold download_video. unfold_calls.
  repeat (case_call; cbn [app]).
  all: eexists; eexists; (split; [reflexivity |]).
  all: observe; auto.
Qed.

(** *** adjust_video_durations *)

(** C3. In a run of [adjust_video_durations] where no call raises: when
    the bottom clip is shorter than the top clip, the returned bottom is
    what [bottom.loop(duration=top.duration)] answered, and its duration
    is the top's duration; otherwise the returned bottom is the input
    bottom and no call is made. *)
Theorem adjust_video_durations_bottom :
  forall (h : trace YT Stream Clip) top bottom r evs,
    loop_sets_duration E ->
    (0 <= clip_duration E bottom)%Q ->
    adjust_video_durations E top bottom h = (r, evs) ->
    all_returned evs = true ->
    ((clip_duration E bottom < clip_duration E top)%Q ->
     exists looped,
       r = Returned (Some top, Some looped) /\
       evs = [EvPrint "Bottom video is shorter than top video. Looping the bottom video to match duration.";
              EvLoop bottom (clip_duration E top) (Returned looped)] /\
       clip_duration E looped = clip_duration E top) /\
    (~ (clip_duration E bottom < clip_duration E top)%Q ->
     r = Returned (Some top, Some bottom) /\ evs = []).
Proof.
  intros h top bottom r evs Hloop Hpos Hrun Hok.
  unfold adjust_video_durations in Hrun. unfold_calls.
  destruct (Qlt_bool (clip_duration E bottom) (clip_duration E top)) eqn:Hlt.
  - apply Qlt_bool_iff in Hlt.
    destruct (lib_loop E _ bottom (clip_duration E top)) as [looped | e] eqn:Hcall;
      cbn [app] in Hrun; inversion Hrun; subst; clear Hrun.
    + split; [intros _ | intros Hge; contradiction].
      exists looped. repeat split.
      apply (Hloop _ _ _ _ (Qle_lt_trans _ _ _ Hpos Hlt) Hcall).
    + observe. discriminate.
  - inversion Hrun; subst; clear Hrun.
    split; [intros Hlt' | intros _; split; reflexivity].
    apply Qlt_bool_iff in Hlt'. congruence.
Qed.

(** C4. [adjust_video_durations] returns the top clip unchanged, whatever
    the two durations: in a run where no call raises it returns the input
    top; the top it returns is never another clip; and the only clip it
    hands to the library is the bottom one. *)
Theorem adjust_video_durations_top :
  forall (h : trace YT Stream Clip) top bottom r evs,
    adjust_video_durations E top bottom h = (r, evs) ->
    (all_returned evs = true -> exists b, r = Returned (Some top, Some b)) /\
    (forall t b, r = Returned (Some t, b) -> t = top) /\
    (forall ev, In ev evs ->
       match ev with
       | EvPrint _ => True
       | EvLoop c _ _ => c = bottom
       | _ => False
       end).
Proof.
  intros h top bottom r evs Hrun.
  unfold adjust_video_durations in Hrun. unfold_calls.
  destruct (Qlt_bool (clip_duration E bottom) (clip_duration E top)) eqn:Hlt.
  - destruct (lib_loop E _ bottom (clip_duration E top)) as [looped | e] eqn:Hcall;
      cbn [app] in Hrun; inversion Hrun; subst; clear Hrun; observe;
      (split; [intros Hok; try discriminate; eauto | split]);
      try (intros t b Heq; congruence);
      intros ev Hin; repeat (destruct Hin as [Hin | Hin]; subst; auto);
      contradiction.
  - inversion Hrun; subst; clear Hrun.
    split; [eauto | split]; [intros t b Heq; congruence | intros ev []].
Qed.

(** *** stack_videos *)

(** C8. When [stack_videos] produces a composite, both layers handed to
    [CompositeVideoClip] have width [min(top.w, bottom.w)], where [top] and
    [bottom] are the clips opened from the two files, the composite is
    asked for that width, and the composite rendered to the output path
    has that width. *)
Theorem stack_videos_width :
  forall (h : trace YT Stream Clip) top_path bottom_path output_path p evs,
    width_contract E ->
    stack_videos E top_path bottom_path output_path h = (Returned (Some p), evs) ->
    exists top bottom top_layer bottom_layer height stacked,
      lib_VideoFileClip E h top_path = Returned top /\
      lib_VideoFileClip E (h ++ [EvVideoFileClip top_path (Returned top)]) bottom_path
        = Returned bottom /\
      In (EvComposite [top_layer; bottom_layer]
            (Z.min (clip_w E top) (clip_w E bottom), height) (Returned stacked)) evs /\
      rendered evs = [(output_path, stacked)] /\
      clip_w E top_layer = Z.min (clip_w E top) (clip_w E bottom) /\
      clip_w E bottom_layer = Z.min (clip_w E top) (clip_w E bottom) /\
      clip_w E stacked = Z.min (clip_w E top) (clip_w E bottom).
Proof.
  intros h top_path bottom_path output_path p evs
    (Hsilent & Hresize & Hloop & Hpos & Hcomp).
  unfold stack_videos, adjust_video_durations. unfold_calls.
  case_run.
  all: intros Hrun; inversion Hrun; subst; clear Hrun.
  all: repeat match goal with u : unit |- _ => destruct u end.
  all: match goal with
       | H : lib_without_audio E _ _ = Returned _ |- _ =>
           rewrite (Hsilent _ _ _ H) in *
       end.
  all: do 6 eexists.
  all: split; [first [reflexivity | eassumption]
              | split; [first [reflexivity | eassumption] | split]].
  all: try (cbn [In app]; repeat (first [left; reflexivity | right])).
  all: split; [reflexivity | ].
  all: repeat match goal with
         | H : lib_resize E _ _ _ = Returned _ |- _ => apply Hresize in H
         | H : lib_loop E _ _ _ = Returned _ |- _ => apply Hloop in H
         | H : lib_set_position E _ _ _ = Returned _ |- _ => apply Hpos in H
         | H : lib_CompositeVideoClip E _ _ _ = Returned _ |- _ => apply Hcomp in H
         end.
  all: cbn [fst] in *; repeat split; congruence.
Qed.

(** C9. When [stack_videos] produces a composite, the sound of the bottom
    clip was removed before compositing: the bottom layer is silent, and the
    sound of the composite rendered to the output path is the sound of the
    clip opened from the top file. *)
Theorem stack_videos_audio :
  forall (h : trace YT Stream Clip) top_path bottom_path output_path p evs,
    audio_contract E ->
    stack_videos E top_path bottom_path output_path h = (Returned (Some p), evs) ->
    exists top bottom silent top_layer bottom_layer size stacked,
      lib_VideoFileClip E h top_path = Returned top /\
      lib_VideoFileClip E (h ++ [EvVideoFileClip top_path (Returned top)]) bottom_path
        = Returned bottom /\
      In (EvWithoutAudio bottom (Returned silent)) evs /\
      In (EvComposite [top_layer; bottom_layer] size (Returned stacked)) evs /\
      rendered evs = [(output_path, stacked)] /\
      clip_audio E silent = [] /\
      clip_audio E bottom_layer = [] /\
      clip_audio E top_layer = clip_audio E top /\
      clip_audio E stacked = clip_audio E top.
Proof.
  intros h top_path bottom_path output_path p evs
    (Hsilent & Hresize & Hloop & Hpos & Hcomp).
  unfold stack_videos, adjust_video_durations. unfold_calls.
  case_run.
  all: intros Hrun; inversion Hrun; subst; clear Hrun.
  all: repeat match goal with u : unit |- _ => destruct u end.
  all: do 7 eexists.
  all: split; [first [reflexivity | eassumption]
              | split; [first [reflexivity | eassumption] | split; [ | split]]].
  all: try (cbn [In app]; repeat (first [left; reflexivity | right])).
  all: split; [reflexivity | ].
  all: repeat match goal with
         | H : lib_without_audio E _ _ = Returned _ |- _ => apply Hsilent in H
         | H : lib_resize E _ _ _ = Returned _ |- _ => apply Hresize in H
         | H : lib_loop E _ _ _ = Returned _ |- _ => apply Hloop in H
         | H : lib_set_position E _ _ _ = Returned _ |- _ => apply Hpos in H
         | H : lib_CompositeVideoClip E _ _ _ = Returned _ |- _ => apply Hcomp in H
         end.
  all: cbn [map List.concat] in *.
  all: repeat match goal with H : clip_audio E _ = _ |- _ => rewrite H in * end.
  all: rewrite ?app_nil_r in *; repeat split; congruence.
Qed.

Lemma stack_videos_offline :
  forall (h : trace YT Stream Clip) top_path bottom_path output_path r evs,
    stack_videos E top_path bottom_path output_path h = (r, evs) -> offline evs.
Proof.
  intros h top_path bottom_path output_path r evs.
  unfold stack_videos, adjust_video_durations. unfold_calls.
  repeat (case_call; cbn [app truthy_obj negb orb]).
  all: intros Hrun; injection Hrun as <- <-; split; reflexivity.
Qed.

(** *** split_video *)

Lemma split_video_unfold video_path output_folder d h :
  split_video E video_path output_folder d h =
  try_except
    (clip <- VideoFileClip E video_path ;;
     starts <- lift (py_range 0 (py_int (clip_duration E clip)) d) ;;
     for_each starts []
       (split_body E clip output_folder d (py_int (clip_duration E clip))))
    (fun e => print ("Error splitting video: " ++ exc_msg e)%string ;; ret []) h.
Proof. reflexivity. Qed.

(** The loop either returns, and then no call raised, or raises, and then
    a call did. *)
Lemma loop_outcome clip output_folder d T :
  forall starts h acc r evs,
    for_each starts acc (split_body E clip output_folder d T) h = (r, evs) ->
    (exists chunks, r = Returned chunks /\ all_returned evs = true) \/
    (exists e, r = Raised e /\ all_returned evs = false).
Proof.
  induction starts as [| start rest IH]; intros h acc r evs Hrun.
  - inversion Hrun; subst. left. eauto.
  - cbn [for_each] in Hrun. unfold bind at 1 in Hrun.
    unfold split_body at 1 in Hrun. unfold_calls.
    revert Hrun.
    repeat (case_call; cbn [app]).
    2, 3: intros Hrun; inversion Hrun; subst; right; eexists; split;
      [reflexivity | observe; reflexivity].
    destruct (for_each rest _ _ _) as [r' evs'] eqn:Hrest.
    intros Hrun; inversion Hrun; subst; clear Hrun.
    apply IH in Hrest. observe. exact Hrest.
Qed.

(** Every window the loop cuts starts at a start of the range and ends at
    [min(start + d, T)]. *)
Lemma loop_windows clip output_folder d T :
  forall starts h acc r evs,
    for_each starts acc (split_body E clip output_folder d T) h = (r, evs) ->
    forall s e, In (s, e) (windows evs) -> In s starts /\ e = Z.min (s + d) T.
Proof.
  induction starts as [| start rest IH]; intros h acc r evs Hrun s e Hin.
  - inversion Hrun; subst. contradiction.
  - cbn [for_each] in Hrun. unfold bind at 1 in Hrun.
    unfold split_body at 1 in Hrun. unfold_calls.
    revert Hrun.
    repeat (case_call; cbn [app]).
    2, 3: intros Hrun; inversion Hrun; subst; observe;
      destruct Hin as [Hin | []]; inversion Hin; subst; auto.
    destruct (for_each rest _ _ _) as [r' evs'] eqn:Hrest.
    intros Hrun; inversion Hrun; subst; clear Hrun.
    observe. destruct Hin as [Hin | Hin].
    + inversion Hin; subst; auto.
    + destruct (IH _ _ _ _ Hrest _ _ Hin); auto.
Qed.

(** The loop over the starts of chunks [ns], when no call raises: one
    cut, one render and one line per chunk, and the paths appended in
    order. *)
Lemma loop_chunks clip output_folder d T :
  0 < d ->
  forall (ns : list nat) h acc r evs,
    for_each (map (fun i => (Z.of_nat i - 1) * d) ns) acc
             (split_body E clip output_folder d T) h = (r, evs) ->
    all_returned evs = true ->
    exists chunks,
      List.length chunks = List.length ns /\
      r = Returned (acc ++ map (fun i => chunk_path output_folder (Z.of_nat i)) ns) /\
      evs = flat_map (chunk_events clip output_folder d T)
                     (combine (map Z.of_nat ns) chunks).
Proof.
  intros Hd.
  induction ns as [| i rest IH]; intros h acc r evs Hrun Hok.
  - inversion Hrun; subst. exists []. rewrite app_nil_r. auto.
  - cbn [for_each map] in Hrun. unfold bind at 1 in Hrun.
    unfold split_body at 1 in Hrun.
    rewrite Z.div_mul in Hrun by lia.
    replace ((Z.of_nat i - 1) * d + d) with (Z.of_nat i * d) in Hrun by ring.
    replace (Z.of_nat i - 1 + 1) with (Z.of_nat i) in Hrun by ring.
    unfold_calls.
    revert Hrun.
    repeat (case_call; cbn [app]).
    2, 3: intros Hrun; inversion Hrun; subst; observe; discriminate.
    destruct (for_each _ _ _ _) as [r' evs'] eqn:Hrest.
    intros Hrun; inversion Hrun; subst; clear Hrun.
    observe.
    destruct (IH _ _ _ _ Hrest Hok) as (chunks & Hlen & Hr & Hevs).
    match goal with c : Clip |- _ => exists (c :: chunks) end.
    repeat match goal with u : unit |- _ => destruct u end.
    cbn [List.length map combine flat_map chunk_events window fst snd app].
    rewrite Hlen, Hr, Hevs, <- app_assoc. auto.
Qed.

Lemma loop_offline clip output_folder d T :
  forall starts h acc r evs,
    for_each starts acc (split_body E clip output_folder d T) h = (r, evs) ->
    offline evs.
Proof.
  induction starts as [| start rest IH]; intros h acc r evs Hrun.
  - injection Hrun as <- <-. split; reflexivity.
  - cbn [for_each] in Hrun. unfold bind at 1 in Hrun.
    unfold split_body at 1 in Hrun. unfold_calls.
    revert Hrun.
    repeat (case_call; cbn [app]).
    2, 3: intros Hrun; injection Hrun as <- <-; split; reflexivity.
    destruct (for_each rest _ _ _) as [r' evs'] eqn:Hrest.
    intros Hrun; injection Hrun as <- <-.
    apply IH in Hrest. destruct Hrest. split; assumption.
Qed.

Lemma rendered_chunks (clip : Clip) output_folder d T :
  forall ns chunks,
    rendered (flat_map (chunk_events (YT:=YT) (Stream:=Stream) clip output_folder d T)
                       (combine ns chunks)) =
    combine (map (chunk_path output_folder) ns) chunks.
Proof.
  induction ns as [| i rest IH]; intros [| c chunks]; cbn; try reflexivity.
  f_equal. apply IH.
Qed.

Lemma windows_chunks (clip : Clip) output_folder d T :
  forall ns chunks,
    List.length chunks = List.length ns ->
    windows (flat_map (chunk_events (YT:=YT) (Stream:=Stream) clip output_folder d T)
                      (combine ns chunks)) =
    map (window d T) ns.
Proof.
  induction ns as [| i rest IH]; intros [| c chunks] Hlen; cbn in *;
    try reflexivity; try discriminate.
  f_equal. apply IH. congruence.
Qed.

(** C1. For a chunk duration [d > 0] and a source video of [T] whole
    seconds, a run of [split_video] in which no call raises produces
    exactly [n = ceil(T / d)] chunk files: for [i = 1 .. n], in this order,
    the window [[(i-1)*d, min(i*d, T))] is cut from the clip and rendered to
    [chunk_<i>.mp4] in the output folder; the returned list is the list of
    these paths in the order of [i]; every chunk is at most [d] seconds
    long (and not empty). *)
Theorem split_video_chunks :
  forall (h : trace YT Stream Clip) video_path output_folder d clip r evs,
    0 < d ->
    lib_VideoFileClip E h video_path = Returned clip ->
    split_video E video_path output_folder d h = (r, evs) ->
    all_returned evs = true ->
    let T := py_int (clip_duration E clip) in
    let n := ceil_div T d in
    (n - 1) * d < T <= n * d /\
    r = Returned (map (chunk_path output_folder) (indices n)) /\
    (exists chunks,
        List.length chunks = Z.to_nat n /\
        evs = EvVideoFileClip video_path (Returned clip)
                :: flat_map (chunk_events clip output_folder d T)
                     (combine (indices n) chunks) /\
        rendered evs = combine (map (chunk_path output_folder) (indices n)) chunks) /\
    windows evs = map (window d T) (indices n) /\
    (forall i, 1 <= i <= n ->
               0 < snd (window d T i) - fst (window d T i) <= d).
Proof.
  intros h video_path output_folder d clip r evs Hd Hopen Hrun Hok T n.
  pose proof (ceil_div_spec T d Hd) as Hn. fold n in Hn.
  rewrite split_video_unfold in Hrun.
  unfold try_except, bind at 1, VideoFileClip at 1, call in Hrun.
  rewrite Hopen in Hrun. fold T in Hrun.
  unfold bind at 1, lift in Hrun.
  rewrite py_range_chunks in Hrun by assumption. fold n in Hrun.
  destruct (for_each _ _ _ _) as [r' evs'] eqn:Hloop.
  rewrite app_nil_l in Hrun.
  destruct (loop_outcome _ _ _ _ _ _ _ _ _ Hloop)
    as [(chunks' & -> & Hok') | (e & -> & Hbad)].
  - inversion Hrun; subst; clear Hrun.
    destruct (loop_chunks _ _ _ _ Hd _ _ _ _ _ Hloop Hok')
      as (chunks & Hlen & Hr & Hevs).
    rewrite length_seq in Hlen. inversion Hr; subst chunks'; clear Hr.
    assert (Hidx : map Z.of_nat (seq 1 (Z.to_nat n)) = indices n) by reflexivity.
    rewrite Hidx in Hevs.
    split; [exact Hn | split; [| split; [| split]]].
    + unfold indices. rewrite map_map. reflexivity.
    + exists chunks. subst evs'. repeat split; try assumption.
      cbn [rendered flat_map app]. apply rendered_chunks.
    + subst evs'. cbn [windows flat_map app]. apply windows_chunks.
      unfold indices. rewrite length_map, length_seq. exact Hlen.
    + intros i Hi. unfold window. cbn [fst snd]. nia.
  - finish_run Hrun.
    match type of Hok with
    | all_returned (?x :: ?l ++ ?m) = _ =>
        change (ev_returned x && all_returned (l ++ m) = true) in Hok
    end.
    rewrite all_returned_app, Hbad in Hok. cbn [ev_returned returned andb] in Hok.
    discriminate.
Qed.

(** C2, as the code has it.  [split_video] always returns a list.  When a
    call raises while the clip is opened or a chunk is cut or rendered,
    the list it returns is empty: the chunks rendered before the failure
    are not in it. *)
Theorem split_video_failure_returns_nothing :
  forall (h : trace YT Stream Clip) video_path output_folder d r evs,
    split_video E video_path output_folder d h = (r, evs) ->
    (exists chunks, r = Returned chunks) /\
    (all_returned evs = false -> r = Returned []).
Proof.
  intros h video_path output_folder d r evs Hrun.
  rewrite split_video_unfold in Hrun.
  unfold try_except, bind at 1, VideoFileClip at 1, call in Hrun.
  destruct (lib_VideoFileClip E h video_path) as [clip | e].
  - unfold bind at 1, lift in Hrun.
    destruct (py_range 0 _ d) as [starts | e].
    + destruct (for_each _ _ _ _) as [r' evs'] eqn:Hloop.
      destruct (loop_outcome _ _ _ _ _ _ _ _ _ Hloop)
        as [(chunks' & -> & Hok') | (e & -> & Hbad)].
      * injection Hrun as <- <-. split; [eauto |].
        cbn [app all_returned forallb ev_returned returned andb].
        fold (all_returned evs'). congruence.
      * finish_run Hrun. split; eauto.
    + finish_run Hrun. split; eauto.
  - finish_run Hrun. split; eauto.
Qed.

(** C10. [split_video] partitions [T = int(duration)] seconds, the
    duration truncated downward: [T <= duration < T + 1], strictly below
    the duration when it is not a whole number.  Every window it cuts lies
    within [[0, T)], so what is left after [T] is in no chunk.  A source
    shorter than one second gives an empty list, and nothing is cut or
    rendered. *)
Theorem split_video_whole_seconds :
  forall (h : trace YT Stream Clip) video_path output_folder d clip r evs,
    lib_VideoFileClip E h video_path = Returned clip ->
    (0 <= clip_duration E clip)%Q ->
    split_video E video_path output_folder d h = (r, evs) ->
    let T := py_int (clip_duration E clip) in
    (inject_Z T <= clip_duration E clip)%Q /\
    (clip_duration E clip < inject_Z (T + 1))%Q /\
    ((forall z, ~ (clip_duration E clip == inject_Z z)%Q) ->
     (inject_Z T < clip_duration E clip)%Q) /\
    (forall s e, In (s, e) (windows evs) -> 0 <= s < e /\ e <= T) /\
    ((clip_duration E clip < 1)%Q ->
     r = Returned [] /\ windows evs = [] /\ render_calls evs = []).
Proof.
  intros h video_path output_folder d clip r evs Hopen Hpos Hrun T.
  destruct (py_int_floor _ Hpos) as [Hlo Hhi]. fold T in Hlo, Hhi.
  pose proof (py_int_nonneg _ Hpos) as HT. fold T in HT.
  split; [exact Hlo | split; [exact Hhi | split; [| split]]].
  - intros Hfrac. apply Qle_lteq in Hlo. destruct Hlo as [Hlt | Heq]; [exact Hlt |].
    exfalso. apply (Hfrac T). symmetry. exact Heq.
  - intros s e Hin.
    rewrite split_video_unfold in Hrun.
    unfold try_except, bind at 1, VideoFileClip at 1, call in Hrun.
    rewrite Hopen in Hrun. fold T in Hrun.
    unfold bind at 1, lift in Hrun.
    destruct (py_range 0 T d) as [starts | e0] eqn:Hrange.
    + destruct (for_each _ _ _ _) as [r' evs'] eqn:Hloop.
      assert (Hin' : In (s, e) (windows evs')).
      { destruct r' as [chunks' | e1].
        - injection Hrun as <- <-. exact Hin.
        - finish_run Hrun.
          cbn [app windows flat_map] in Hin. rewrite flat_map_app in Hin.
          cbn [flat_map app] in Hin. rewrite app_nil_r in Hin. exact Hin. }
      destruct (loop_windows _ _ _ _ _ _ _ _ _ Hloop _ _ Hin') as [Hs He].
      destruct (py_range_bounds _ _ _ HT Hrange _ Hs) as [Hd Hb]. lia.
    + finish_run Hrun. cbn in Hin. contradiction.
  - intros Hshort.
    assert (HT0 : T = 0).
    { assert (Hlt : (inject_Z T < inject_Z 1)%Q)
        by (eapply Qle_lt_trans; eassumption).
      rewrite <- Zlt_Qlt in Hlt. lia. }
    rewrite split_video_unfold in Hrun.
    unfold try_except, bind at 1, VideoFileClip at 1, call in Hrun.
    rewrite Hopen in Hrun. fold T in Hrun. rewrite HT0 in Hrun.
    unfold bind at 1, lift, py_range, range_len in Hrun.
    destruct (d =? 0); [| destruct (0 <? d)];
      cbn in Hrun; injection Hrun as <- <-; auto.
Qed.

Lemma split_video_offline :
  forall (h : trace YT Stream Clip) video_path output_folder d r evs,
    split_video E video_path output_folder d h = (r, evs) -> offline evs.
Proof.
  intros h video_path output_folder d r evs Hrun.
  rewrite split_video_unfold in Hrun.
  unfold try_except, bind at 1, VideoFileClip at 1, call in Hrun.
  destruct (lib_VideoFileClip E h video_path) as [clip | e].
  - unfold bind at 1, lift in Hrun.
    destruct (py_range 0 _ d) as [starts | e].
    + destruct (for_each _ _ _ _) as [r' evs'] eqn:Hloop.
      apply loop_offline in Hloop.
      destruct r' as [chunks | e].
      * injection Hrun as <- <-. destruct Hloop. split; assumption.
      * finish_run Hrun.
        apply (offline_app [_]); [split; reflexivity |].
        apply offline_app; [assumption | split; reflexivity].
    + finish_run Hrun. split; reflexivity.
  - finish_run Hrun. split; reflexivity.
Qed.

(** *** process_video_pair *)

(** C6. When either of the two [download_video] calls of a pair returns
    [None], [process_video_pair] prints one line and returns: after the
    two downloads it makes no call at all.  In particular nothing is
    rendered ([combined_video.mp4] is not written) and no directory is
    created (no [chunks] folder). *)
Theorem process_video_pair_skips_failed_download :
  forall (h : trace YT Stream Clip) top_url bottom_url output_folder p1 e1 p2 e2,
    download_video E top_url output_folder h = (Returned p1, e1) ->
    download_video E bottom_url output_folder (h ++ e1) = (Returned p2, e2) ->
    p1 = None \/ p2 = None ->
    let evs :=
      e1 ++ e2 ++ [EvPrint "Failed to download one or both videos. Skipping."] in
    process_video_pair E top_url bottom_url output_folder h = (Returned tt, evs) /\
    render_calls evs = [] /\ made_dirs evs = [].
Proof.
  intros h top_url bottom_url output_folder p1 e1 p2 e2 H1 H2 Hnone evs.
  split.
  - unfold process_video_pair. unfold bind at 1. rewrite H1.
    unfold bind at 1. rewrite H2.
    assert (Hguard : negb (truthy_path p1) || negb (truthy_path p2) = true).
    { destruct Hnone; subst; cbn; [reflexivity | apply orb_true_r]. }
    rewrite Hguard. reflexivity.
  - destruct (download_video_quiet h top_url output_folder)
      as (p1' & e1' & R1 & _ & _ & C1 & D1).
    destruct (download_video_quiet (h ++ e1) bottom_url output_folder)
      as (p2' & e2' & R2 & _ & _ & C2 & D2).
    rewrite H1 in R1. rewrite H2 in R2. inversion R1; inversion R2; subst.
    unfold evs, render_calls, made_dirs in *. rewrite !flat_map_app.
    rewrite C1, C2, D1, D2. auto.
Qed.

(** A pair resolves its two URLs, top first, and no playlist. *)
Lemma process_video_pair_fetches :
  forall (h : trace YT Stream Clip) top_url bottom_url output_folder r evs,
    process_video_pair E top_url bottom_url output_folder h = (r, evs) ->
    fetched evs = [top_url; bottom_url] /\ resolved_playlists evs = [].
Proof.
  intros h top_url bottom_url output_folder r evs Hrun.
  unfold process_video_pair in Hrun. unfold bind at 1 in Hrun.
  destruct (download_video_quiet h top_url output_folder)
    as (p1 & e1 & R1 & F1 & P1 & _).
  rewrite R1 in Hrun.
  unfold bind at 1 in Hrun.
  destruct (download_video_quiet (h ++ e1) bottom_url output_folder)
    as (p2 & e2 & R2 & F2 & P2 & _).
  rewrite R2 in Hrun.
  assert (Hend : forall tail, offline tail ->
             fetched (e1 ++ e2 ++ tail) = [top_url; bottom_url] /\
             resolved_playlists (e1 ++ e2 ++ tail) = []).
  { intros tail [Ft Pt]. unfold fetched, resolved_playlists in *.
    rewrite !flat_map_app, F1, F2, P1, P2, Ft, Pt. auto. }
  destruct (negb (truthy_path p1) || negb (truthy_path p2)).
  - finish_run Hrun. apply Hend. split; reflexivity.
  - destruct p1 as [top_path |], p2 as [bottom_path |];
      try (unfold ret in Hrun; cbv beta iota zeta in Hrun;
           injection Hrun as <- <-; apply (Hend []); split; reflexivity).
    unfold bind at 1 in Hrun.
    destruct (stack_videos _ _ _ _ _) as [[stacked | e] e3] eqn:Hstack;
      apply stack_videos_offline in Hstack.
    + destruct stacked as [stacked |].
      * destruct (stacked =? "")%string.
        -- finish_run Hrun.
           apply Hend. apply offline_app; [assumption | split; reflexivity].
        -- unfold bind at 1, makedirs, call in Hrun.
           destruct (os_makedirs E _ _ _) as [u | e].
           ++ unfold bind at 1 in Hrun.
              destruct (split_video _ _ _ _ _) as [[chunks | e] e4] eqn:Hsplit;
                apply split_video_offline in Hsplit;
                unfold ret in Hrun; injection Hrun as <- <-;
                apply Hend; rewrite ?app_nil_r;
                apply offline_app; try assumption;
                apply (offline_app [_]); try assumption; split; reflexivity.
           ++ injection Hrun as <- <-. apply Hend.
              apply offline_app; [assumption | split; reflexivity].
      * finish_run Hrun.
        apply Hend. apply offline_app; [assumption | split; reflexivity].
    + injection Hrun as <- <-. apply Hend. assumption.
Qed.

(** *** process_playlists *)

Lemma process_playlists_unfold h :
  process_playlists E h =
  (output_folder <- create_output_folder E "output" ;;
   top_playlist_url <- input E "Enter the URL for the top playlist: " ;;
   bottom_playlist_url <- input E "Enter the URL for the bottom playlist: " ;;
   top_urls <- video_urls E (strip top_playlist_url) ;;
   print ("Found " ++ str_Z (Z.of_nat (List.length top_urls))
                   ++ " videos in top playlist.")%string ;;
   bottom_urls <- video_urls E (strip bottom_playlist_url) ;;
   print ("Found " ++ str_Z (Z.of_nat (List.length bottom_urls))
                   ++ " videos in bottom playlist.")%string ;;
   for_each (combine top_urls bottom_urls) tt (pair_body E output_folder)) h.
Proof. reflexivity. Qed.

(** The loop over the pairs resolves the URLs of the first [k] pairs, in
    order, where [k] is the number of pairs when the loop returns. *)
Lemma pairs_loop output_folder :
  forall pairs (h : trace YT Stream Clip) r evs,
    for_each pairs tt (pair_body E output_folder) h = (r, evs) ->
    exists k,
      (k <= List.length pairs)%nat /\
      fetched evs = flat_map (fun p => [fst p; snd p]) (firstn k pairs) /\
      resolved_playlists evs = [] /\
      (r = Returned tt -> k = List.length pairs).
Proof.
  induction pairs as [| [top_url bottom_url] rest IH]; intros h r evs Hrun.
  - injection Hrun as <- <-. exists 0%nat. auto.
  - cbn [for_each] in Hrun. unfold bind at 1 in Hrun.
    unfold pair_body at 1 in Hrun. unfold bind at 1, print at 1 in Hrun.
    destruct (process_video_pair _ _ _ _ _) as [[[] | e] e1] eqn:Hpair;
      destruct (process_video_pair_fetches _ _ _ _ _ _ Hpair) as [F1 P1].
    + destruct (for_each rest _ _ _) as [r' evs'] eqn:Hrest.
      injection Hrun as <- <-.
      destruct (IH _ _ _ Hrest) as (k & Hk & Fk & Pk & Hall).
      exists (S k). cbn [List.length firstn flat_map fst snd].
      unfold fetched, resolved_playlists in *.
      cbn [flat_map app]. rewrite ?flat_map_app.
      rewrite F1, P1, Fk, Pk. repeat split; auto; lia.
    + injection Hrun as <- <-.
      exists 1%nat. cbn [List.length firstn flat_map fst snd].
      unfold fetched, resolved_playlists in *.
      cbn [flat_map app]. rewrite F1, P1.
      repeat split; auto; try lia. discriminate.
Qed.


End Properties.

(** ** The simulated environment meets the assumptions on moviepy *)

Lemma sim_loop_sets_duration (s : Sim.scenario) : loop_sets_duration (Sim.env s).
Proof.
  intros h c d c' _ Hcall. cbn in Hcall.
  destruct (Qeq_bool (Sim.duration c) 0); inversion Hcall. reflexivity.
Qed.

Lemma sim_width_contract (s : Sim.scenario) : width_contract (Sim.env s).
Proof.
  repeat split; intros; cbn in *;
    repeat match goal with
      | H : (if ?b then _ else _) = _ |- _ => destruct b
      | H : Returned _ = Returned _ |- _ => inversion H; clear H; subst
      | H : Raised _ = Returned _ |- _ => discriminate H
      end; reflexivity.
Qed.

Lemma sim_audio_contract (s : Sim.scenario) : audio_contract (Sim.env s).
Proof.
  repeat split; intros; cbn in *;
    repeat match goal with
      | H : (if ?b then _ else _) = _ |- _ => destruct b
      | H : Returned _ = Returned _ |- _ => inversion H; clear H; subst
      | H : Raised _ = Returned _ |- _ => discriminate H
      end; reflexivity.
Qed.

(** ** The properties on concrete runs *)

(** A clip of 200 seconds cut in chunks of 75 seconds: three chunks, of 75,
    75 and 50 seconds. *)
Lemma split_video_chunks_witness :
  let E := Sim.env Sim.fine in
  let run := split_video E "out/combined_video.mp4" "out/chunks" 75 [] in
  0 < 75 /\
  all_returned (snd run) = true /\
  fst run = Returned ["out/chunks/chunk_1.mp4"; "out/chunks/chunk_2.mp4";
                      "out/chunks/chunk_3.mp4"]%string /\
  windows (snd run) = [(0, 75); (75, 150); (150, 200)].
Proof.
  intros E run.
  destruct (split_video_chunks E [] "out/combined_video.mp4" "out/chunks" 75
              (Sim.mkClip 1280 720 (200 # 1) ["out/combined_video.mp4"%string])
              (fst run) (snd run)
              ltac:(lia) eq_refl (surjective_pairing run) eq_refl)
    as (_ & Hr & _ & Hw & _).
  split; [lia | split; [reflexivity | split; [exact Hr | exact Hw]]].
Defined.

(** The disk fills up while the second chunk is rendered: the first chunk is
    on disk, and the list returned is empty. *)
Lemma split_video_partial_chunks_dropped :
  let E := Sim.env Sim.disk_full in
  let run := split_video E "out/combined_video.mp4" "out/chunks" 75 [] in
  map fst (rendered (snd run)) = ["out/chunks/chunk_1.mp4"%string] /\
  render_calls (snd run) =
    ["out/chunks/chunk_1.mp4"; "out/chunks/chunk_2.mp4"]%string /\
  all_returned (snd run) = false /\
  fst run = Returned [] /\
  ~ (exists chunks,
        fst run = Returned chunks /\
        forall path, In path (map fst (rendered (snd run))) -> In path chunks).
Proof.
  intros E run. repeat split; try reflexivity.
  intros (chunks & Hr & Hall).
  vm_compute in Hr. injection Hr as <-.
  apply (Hall "out/chunks/chunk_1.mp4"%string). left. reflexivity.
Qed.

Lemma split_video_failure_returns_nothing_witness :
  let E := Sim.env Sim.disk_full in
  let run := split_video E "out/combined_video.mp4" "out/chunks" 75 [] in
  all_returned (snd run) = false /\ fst run = Returned [].
Proof.
  intros E run.
  destruct (split_video_failure_returns_nothing E []
              "out/combined_video.mp4" "out/chunks" 75 (fst run) (snd run)
              (surjective_pairing run)) as [_ Hfail].
  split; [reflexivity | exact (Hfail eq_refl)].
Defined.

(** A top clip of 120 seconds over a bottom clip of 40 seconds. *)
Lemma adjust_video_durations_bottom_witness :
  let E := Sim.env Sim.fine in
  let top := Sim.mkClip 1280 720 (120 # 1) ["top.mp4"%string] in
  let bottom := Sim.mkClip 1280 720 (40 # 1) [] in
  let run := adjust_video_durations E top bottom [] in
  (0 <= Sim.duration bottom)%Q /\
  (Sim.duration bottom < Sim.duration top)%Q /\
  all_returned (snd run) = true /\
  exists looped,
    fst run = Returned (Some top, Some looped) /\
    Sim.duration looped = Sim.duration top.
Proof.
  intros E top bottom run.
  assert (Hpos : (0 <= Sim.duration bottom)%Q) by (unfold Qle; simpl; lia).
  assert (Hlt : (Sim.duration bottom < Sim.duration top)%Q) by reflexivity.
  destruct (adjust_video_durations_bottom E [] top bottom (fst run) (snd run)
              (sim_loop_sets_duration Sim.fine) Hpos
              (surjective_pairing run) eq_refl) as [Hshort _].
  destruct (Hshort Hlt) as (looped & Hr & _ & Hd).
  split; [exact Hpos | split; [exact Hlt | split; [reflexivity |]]].
  exists looped. split; [exact Hr | exact Hd].
Defined.

Lemma adjust_video_durations_top_witness :
  let E := Sim.env Sim.fine in
  let top := Sim.mkClip 1280 720 (120 # 1) ["top.mp4"%string] in
  let bottom := Sim.mkClip 1280 720 (40 # 1) [] in
  let run := adjust_video_durations E top bottom [] in
  all_returned (snd run) = true /\
  exists b, fst run = Returned (Some top, Some b).
Proof.
  intros E top bottom run.
  destruct (adjust_video_durations_top E [] top bottom (fst run) (snd run)
              (surjective_pairing run)) as [Hok _].
  split; [reflexivity | exact (Hok eq_refl)].
Defined.

(** A URL that does not resolve. *)
Lemma download_video_catches_failures_witness :
  exists evs,
    download_video (Sim.env Sim.dead_link) "gone" "out" [] = (Returned None, evs) /\
    all_returned evs = false.
Proof.
  destruct (download_video_catches_failures (Sim.env Sim.dead_link) [] "gone" "out")
    as (p & evs & Hrun & Hfail & _).
  assert (Hbad : all_returned evs = false).
  { vm_compute in Hrun. injection Hrun as <- <-. reflexivity. }
  exists evs. rewrite <- (Hfail Hbad). split; [exact Hrun | exact Hbad].
Defined.

Lemma process_video_pair_skips_failed_download_witness :
  let E := Sim.env Sim.dead_link in
  let top := download_video E "gone" "out" [] in
  let bottom := download_video E "b" "out" ([] ++ snd top) in
  let run := process_video_pair E "gone" "b" "out" [] in
  fst top = Returned None /\
  fst run = Returned tt /\ render_calls (snd run) = [] /\ made_dirs (snd run) = [].
Proof.
  intros E top bottom run.
  destruct (process_video_pair_skips_failed_download E [] "gone" "b" "out"
              None (snd top) (Some "out/b.mp4"%string) (snd bottom)
              eq_refl eq_refl (or_introl eq_refl)) as (Hrun & Hrender & Hdirs).
  fold run in Hrun. rewrite Hrun.
  split; [reflexivity | split; [reflexivity | split; assumption]].
Defined.


(** A 1280-wide clip over a 640-wide clip. *)
Lemma stack_videos_width_witness :
  let E := Sim.env Sim.fine in
  let run := stack_videos E "out/a.mp4" "out/narrow.mp4" "out/combined_video.mp4" [] in
  fst run = Returned (Some "out/combined_video.mp4"%string) /\
  exists stacked,
    rendered (snd run) = [("out/combined_video.mp4"%string, stacked)] /\
    Sim.w stacked = 640.
Proof.
  intros E run.
  destruct (stack_videos_width E [] "out/a.mp4" "out/narrow.mp4"
              "out/combined_video.mp4" "out/combined_video.mp4" (snd run)
              (sim_width_contract Sim.fine) eq_refl)
    as (top & bottom & top_layer & bottom_layer & height & stacked
        & Htop & Hbottom & _ & Hrendered & _ & _ & Hw).
  vm_compute in Htop. injection Htop as <-.
  vm_compute in Hbottom. injection Hbottom as <-.
  split; [reflexivity |].
  exists stacked. split; [exact Hrendered | exact Hw].
Defined.

Lemma stack_videos_audio_witness :
  let E := Sim.env Sim.fine in
  let run := stack_videos E "out/a.mp4" "out/narrow.mp4" "out/combined_video.mp4" [] in
  fst run = Returned (Some "out/combined_video.mp4"%string) /\
  exists stacked,
    rendered (snd run) = [("out/combined_video.mp4"%string, stacked)] /\
    Sim.audio stacked = ["out/a.mp4"%string].
Proof.
  intros E run.
  destruct (stack_videos_audio E [] "out/a.mp4" "out/narrow.mp4"
              "out/combined_video.mp4" "out/combined_video.mp4" (snd run)
              (sim_audio_contract Sim.fine) eq_refl)
    as (top & bottom & silent & top_layer & bottom_layer & size & stacked
        & Htop & _ & _ & _ & Hrendered & _ & _ & _ & Ha).
  vm_compute in Htop. injection Htop as <-.
  split; [reflexivity |].
  exists stacked. split; [exact Hrendered | exact Ha].
Defined.

(** Half a second of video. *)
Lemma split_video_whole_seconds_witness :
  let E := Sim.env Sim.fine in
  let run := split_video E "blip.mp4" "out/chunks" 75 [] in
  (0 <= 1 # 2)%Q /\ (1 # 2 < 1)%Q /\
  fst run = Returned [] /\ windows (snd run) = [] /\ render_calls (snd run) = [].
Proof.
  intros E run.
  assert (Hpos : (0 <= 1 # 2)%Q) by (unfold Qle; simpl; lia).
  assert (Hlt : (1 # 2 < 1)%Q) by reflexivity.
  destruct (split_video_whole_seconds E [] "blip.mp4" "out/chunks" 75
              (Sim.mkClip 1280 720 (1 # 2) ["blip.mp4"%string])
              (fst run) (snd run) eq_refl Hpos (surjective_pairing run))
    as (_ & _ & _ & _ & Hshort).
  exact (conj Hpos (conj Hlt (Hshort Hlt))).
Defined.

(** 200.5 seconds of video in chunks of 75 seconds: the last chunk ends at
    200 seconds. *)
Example split_video_odd_duration :
  windows (snd (split_video (Sim.env Sim.fine) "odd.mp4" "out/chunks" 75 [])) =
  [(0, 75); (75, 150); (150, 200)].
Proof. reflexivity. Qed.

(** Looping a clip of no duration raises; the pair comes back as
    [(None, None)]. *)
Example adjust_video_durations_loop_raises :
  fst (adjust_video_durations (Sim.env Sim.fine)
         (Sim.mkClip 1280 720 (120 # 1) ["top.mp4"%string])
         (Sim.mkClip 1280 720 0 []) []) = Returned (None, None).
Proof. reflexivity. Qed.

(** ** More properties of the script *)

From Stdlib Require Import DecimalZ DecimalPos FinFun.

Lemma string_length_append (a b : string) :
  String.length (a ++ b)%string = (String.length a + String.length b)%nat.
Proof. induction a as [| c a IH]; cbn; [reflexivity | rewrite IH; reflexivity]. Qed.

Lemma string_append_inj_l (a x y : string) :
  (a ++ x = a ++ y)%string -> x = y.
Proof.
  induction a as [| c a IH]; cbn; intros H; [exact H |].
  injection H as H. auto.
Qed.

Lemma string_append_inj_r (s x y : string) :
  (x ++ s = y ++ s)%string -> x = y.
Proof.
  revert y. induction x as [| c x IH]; intros [| c' y] H; cbn in H.
  - reflexivity.
  - apply (f_equal String.length) in H. cbn in H.
    rewrite string_length_append in H. lia.
  - apply (f_equal String.length) in H. cbn in H.
    rewrite string_length_append in H. lia.
  - injection H as -> H. f_equal. auto.
Qed.

Lemma str_Z_inj (i j : Z) : str_Z i = str_Z j -> i = j.
Proof.
  unfold str_Z. intros H.
  assert (Hnil : forall z, Z.to_int z <> Decimal.Pos Decimal.Nil /\
                           Z.to_int z <> Decimal.Neg Decimal.Nil).
  { intros [| p | p]; cbn; split; try discriminate;
      intros Hc; injection Hc as Hc;
      exact (Unsigned.to_uint_nonnil p Hc). }
  apply (f_equal NilZero.int_of_string) in H.
  destruct (Hnil i) as [Hi Hi'], (Hnil j) as [Hj Hj'].
  rewrite !NilZero.isi in H by assumption.
  injection H as H. apply (f_equal Z.of_int) in H.
  rewrite !DecimalZ.of_to in H. exact H.
Qed.

Lemma chunk_path_inj (output_folder : string) (i j : Z) :
  chunk_path output_folder i = chunk_path output_folder j -> i = j.
Proof.
  unfold chunk_path, path_join.
  change (starts_with_sep ("chunk_" ++ str_Z i ++ ".mp4")%string) with false.
  change (starts_with_sep ("chunk_" ++ str_Z j ++ ".mp4")%string) with false.
  cbv iota.
  intros H. apply str_Z_inj.
  destruct ((output_folder =? "")%string || ends_with_sep output_folder).
  - apply string_append_inj_l, (string_append_inj_l "chunk_") in H.
    apply string_append_inj_r in H. exact H.
  - apply string_append_inj_l, (string_append_inj_l "/chunk_") in H.
    apply string_append_inj_r in H. exact H.
Qed.

Lemma chain_windows (d T : Z) :
  0 < d ->
  forall len a,
    (Z.of_nat (a + len) - 2) * d < T <= (Z.of_nat (a + len) - 1) * d ->
    chain (Z.min ((Z.of_nat a - 1) * d) T)
          (map (window d T) (map Z.of_nat (seq a len))) T.
Proof.
  intros Hd. induction len as [| len IH]; intros a H.
  - cbn. rewrite Nat.add_0_r in H. lia.
  - cbn [seq map chain window].
    assert (Ha : (Z.of_nat a - 1) * d < T) by nia.
    split; [lia | split; [lia |]].
    replace (Z.of_nat a * d) with ((Z.of_nat (S a) - 1) * d) by lia.
    apply IH. replace (S a + len)%nat with (a + S len)%nat by lia. exact H.
Qed.

Section MoreProperties.
Context {YT Stream Clip : Type} (E : @Env YT Stream Clip).

Lemma download_video_footprint :
  forall (h : trace YT Stream Clip) url output_folder r evs,
    download_video E url output_folder h = (r, evs) ->
    Forall (download_footprint url output_folder) evs.
Proof.
  intros h url output_folder r evs.
  unfold download_video. unfold_calls.
  repeat (case_call; cbn [app]).
  all: intros Hrun; injection Hrun as <- <-.
  all: repeat constructor.
Qed.

Lemma stack_videos_footprint :
  forall (h : trace YT Stream Clip) top_path bottom_path output_path r evs,
    stack_videos E top_path bottom_path output_path h = (r, evs) ->
    Forall (stack_footprint top_path bottom_path output_path) evs.
Proof.
  intros h top_path bottom_path output_path r evs.
  unfold stack_videos, adjust_video_durations. unfold_calls.
  repeat (case_call; cbn [app truthy_obj negb orb]).
  all: intros Hrun; injection Hrun as <- <-.
  all: repeat (constructor; [cbn; auto |]); constructor.
Qed.

Lemma chunks_footprint_tail output_folder d start rest (ev : event YT Stream Clip) :
  chunks_footprint output_folder d rest ev ->
  chunks_footprint output_folder d (start :: rest) ev.
Proof.
  destruct ev; cbn; auto.
  intros ((s & Hs & Hp) & Hc). split; [| exact Hc]. exists s. auto.
Qed.

Lemma loop_footprint clip output_folder d T :
  forall starts h acc r evs,
    for_each starts acc (split_body E clip output_folder d T) h = (r, evs) ->
    Forall (chunks_footprint output_folder d starts) evs.
Proof.
  induction starts as [| start rest IH]; intros h acc r evs Hrun.
  - injection Hrun as <- <-. constructor.
  - cbn [for_each] in Hrun. unfold bind at 1 in Hrun.
    unfold split_body at 1 in Hrun. unfold_calls.
    revert Hrun.
    repeat (case_call; cbn [app]).
    2, 3: intros Hrun; injection Hrun as <- <-;
      repeat (constructor; [cbn; eauto 8 |]); constructor.
    destruct (for_each rest _ _ _) as [r' evs'] eqn:Hrest.
    intros Hrun; injection Hrun as <- <-.
    apply IH in Hrest.
    repeat (constructor; [cbn; eauto 8 |]).
    eapply Forall_impl; [| exact Hrest].
    intros ev. apply chunks_footprint_tail.
Qed.

Lemma split_video_footprint :
  forall (h : trace YT Stream Clip) video_path output_folder d r evs,
    split_video E video_path output_folder d h = (r, evs) ->
    Forall (split_footprint video_path output_folder) evs.
Proof.
  intros h video_path output_folder d r evs Hrun.
  rewrite split_video_unfold in Hrun.
  unfold try_except, bind at 1, VideoFileClip at 1, call in Hrun.
  destruct (lib_VideoFileClip E h video_path) as [clip | e].
  - unfold bind at 1, lift in Hrun.
    destruct (py_range 0 _ d) as [starts | e] eqn:Hrange.
    + destruct (for_each _ _ _ _) as [r' evs'] eqn:Hloop.
      apply loop_footprint in Hloop.
      assert (Hchunks : Forall (split_footprint video_path output_folder) evs').
      { eapply Forall_impl; [| exact Hloop].
        intros [] Hev; cbn in *; auto; try contradiction.
        destruct Hev as ((s & Hs & Hp) & Hc). split; [| exact Hc].
        unfold py_range in Hrange.
        destruct (d =? 0) eqn:Hd; [discriminate |]. apply Z.eqb_neq in Hd.
        injection Hrange as <-.
        apply in_map_iff in Hs. destruct Hs as (k & <- & _).
        exists (Z.of_nat k + 1). split; [lia |].
        rewrite Hp, ?Z.add_0_l, Z.div_mul by assumption. reflexivity. }
      destruct r' as [chunks | e].
      * injection Hrun as <- <-. constructor; [reflexivity | exact Hchunks].
      * finish_run Hrun. constructor; [reflexivity |].
        apply Forall_app. split; [exact Hchunks | repeat constructor].
    + finish_run Hrun. repeat constructor.
  - finish_run Hrun. repeat constructor.
Qed.

Lemma process_video_pair_footprint :
  forall (h : trace YT Stream Clip) top_url bottom_url output_folder r evs,
    process_video_pair E top_url bottom_url output_folder h = (r, evs) ->
    Forall (pair_footprint top_url bottom_url output_folder) evs.
Proof.
  intros h top_url bottom_url output_folder r evs Hrun.
  unfold process_video_pair in Hrun. unfold bind at 1 in Hrun.
  destruct (download_video E top_url output_folder h) as [r1 e1] eqn:R1.
  pose proof (download_video_footprint _ _ _ _ _ R1) as F1.
  assert (G1 : Forall (pair_footprint top_url bottom_url output_folder) e1).
  { eapply Forall_impl; [| exact F1]. intros []; cbn; auto; try contradiction. }
  destruct r1 as [p1 | e]; [| injection Hrun as <- <-; exact G1].
  unfold bind at 1 in Hrun.
  destruct (download_video E bottom_url output_folder (h ++ e1)) as [r2 e2] eqn:R2.
  pose proof (download_video_footprint _ _ _ _ _ R2) as F2.
  assert (G2 : Forall (pair_footprint top_url bottom_url output_folder) e2).
  { eapply Forall_impl; [| exact F2]. intros []; cbn; auto; try contradiction. }
  destruct r2 as [p2 | e];
    [| injection Hrun as <- <-; apply Forall_app; split; assumption].
  assert (Hend : forall tail,
             Forall (pair_footprint top_url bottom_url output_folder) tail ->
             Forall (pair_footprint top_url bottom_url output_folder)
                    (e1 ++ e2 ++ tail)).
  { intros tail Ht. apply Forall_app. split; [assumption |].
    apply Forall_app. split; assumption. }
  destruct (negb (truthy_path p1) || negb (truthy_path p2)).
  - finish_run Hrun. apply Hend. repeat constructor.
  - destruct p1 as [top_path |], p2 as [bottom_path |];
      try (unfold ret in Hrun; cbv beta iota zeta in Hrun;
           injection Hrun as <- <-; apply (Hend []); constructor).
    unfold bind at 1 in Hrun.
    destruct (stack_videos _ _ _ _ _) as [r3 e3] eqn:R3.
    pose proof (stack_videos_footprint _ _ _ _ _ _ R3) as F3.
    assert (G3 : Forall (pair_footprint top_url bottom_url output_folder) e3).
    { eapply Forall_impl; [| exact F3]. intros []; cbn; auto; try contradiction.
      intros (-> & Hc); auto. }
    destruct r3 as [[stacked |] | e].
    + destruct (stacked =? "")%string.
      * finish_run Hrun. apply Hend.
        apply Forall_app. split; [exact G3 | repeat constructor].
      * unfold bind at 1, makedirs, call in Hrun.
        destruct (os_makedirs E _ _ _) as [u | e].
        -- unfold bind at 1 in Hrun.
           destruct (split_video _ _ _ _ _) as [r4 e4] eqn:R4.
           pose proof (split_video_footprint _ _ _ _ _ _ R4) as F4.
           assert (G4 : Forall (pair_footprint top_url bottom_url output_folder) e4).
           { eapply Forall_impl; [| exact F4]. intros []; cbn; auto; try contradiction.
             intros (Hi & Hc); auto. }
           destruct r4 as [chunks | e]; unfold ret in Hrun;
             injection Hrun as <- <-; apply Hend; rewrite ?app_nil_r;
             (apply Forall_app; split; [exact G3 |]);
             (constructor; [cbn; auto | exact G4]).
        -- injection Hrun as <- <-. apply Hend.
           apply Forall_app. split; [exact G3 | repeat constructor].
    + finish_run Hrun. apply Hend.
      apply Forall_app. split; [exact G3 | repeat constructor].
    + injection Hrun as <- <-. apply Hend. exact G3.
Qed.

(** *** stack_videos *)

(** X2. [stack_videos] never raises.  When no call raised it returns
    [output_path], and that file was rendered once; when a call raised it
    returns [None], and no render call returned. *)
Theorem stack_videos_catches_failures :
  forall (h : trace YT Stream Clip) top_path bottom_path output_path,
  exists p evs,
    stack_videos E top_path bottom_path output_path h = (Returned p, evs) /\
    (all_returned evs = true ->
     p = Some output_path /\ exists stacked, rendered evs = [(output_path, stacked)]) /\
    (all_returned evs = false -> p = None /\ rendered evs = []).
Proof.
  intros h top_path bottom_path output_path.
  unfold stack_videos, adjust_video_durations. unfold_calls.
  repeat (case_call; cbn [app truthy_obj negb orb]).
  all: eexists; eexists; (split; [reflexivity |]).
  all: repeat match goal with u : unit |- _ => destruct u end.
  all: observe; split; intros Hok; try discriminate Hok; eauto.
Qed.

(** X3. When [stack_videos] produces a composite, it has two layers, the
    top one first, and the bottom layer lasts at least as long as the top
    layer. *)
Theorem stack_videos_bottom_covers_top :
  forall (h : trace YT Stream Clip) top_path bottom_path output_path p evs,
    duration_contract E ->
    stack_videos E top_path bottom_path output_path h = (Returned (Some p), evs) ->
    exists top_layer bottom_layer,
      composited evs = [[top_layer; bottom_layer]] /\
      (clip_duration E top_layer <= clip_duration E bottom_layer)%Q.
Proof.
  intros h top_path bottom_path output_path p evs
    (Hopen & Hsilent & Hresize & Hset & Hloop).
  unfold stack_videos, adjust_video_durations. unfold_calls.
  case_run.
  all: intros Hrun; inversion Hrun; subst; clear Hrun.
  all: do 2 eexists; (split; [reflexivity |]).
  all: repeat match goal with
         | H : lib_set_position E _ _ _ = Returned _ |- _ =>
             apply Hset in H; rewrite H
         end.
  - match goal with
    | H : lib_loop E _ ?b ?d = Returned _, Hlt : Qlt_bool _ _ = true |- _ =>
        apply Qlt_bool_iff in Hlt;
        assert (Hpos : (0 <= clip_duration E b)%Q);
        [| rewrite (Hloop _ _ _ _ (Qle_lt_trans _ _ _ Hpos Hlt) H) ]
    end.
    + repeat match goal with
        | H : lib_resize E _ _ _ = Returned _ |- _ => apply Hresize in H
        | H : lib_without_audio E _ _ = Returned _ |- _ => apply Hsilent in H
        end.
      match goal with
      | H : lib_VideoFileClip E (_ ++ _) _ = Returned ?c |- _ =>
          apply Hopen in H
      end.
      congruence.
    + apply Qle_refl.
  - match goal with
    | Hlt : Qlt_bool ?b ?t = false |- _ =>
        apply Qnot_lt_le; intros Hc; apply Qlt_bool_iff in Hc; congruence
    end.
Qed.

(** *** download_video *)

(** X1. When every call of [download_video] returns and a stream was
    selected, the function returns a path; and a path it returns is always
    what [download] answered for the stream selected for [url], asked to
    download into [output_folder]. *)
Theorem download_video_returns_downloaded_path :
  forall (h : trace YT Stream Clip) url output_folder r evs,
    download_video E url output_folder h = (r, evs) ->
    (all_returned evs = true ->
     (forall yt, ~ In (EvHighestResolution yt (Returned None)) evs) ->
     exists path, r = Returned (Some path)) /\
    (forall path, r = Returned (Some path) ->
       exists yt stream,
         In (EvYouTube url (Returned yt)) evs /\
         In (EvHighestResolution yt (Returned (Some stream))) evs /\
         In (EvDownload stream output_folder (Returned path)) evs).
Proof.
  intros h url output_folder r evs.
  unfold download_video. unfold_calls.
  repeat (case_call; cbn [app]).
  all: intros Hrun; injection Hrun as <- <-.
  all: split.
  all: try (intros Hok Hstream; observe; try discriminate Hok;
            first [ solve [eauto] | exfalso; eapply Hstream; cbn [In]; eauto 10 ]).
  all: intros path Hp; try discriminate Hp.
  injection Hp as <-. do 2 eexists.
  repeat split; cbn [In]; repeat (first [left; reflexivity | right]).
Qed.

(** *** split_video *)

(** X4. With a chunk duration of zero or less, [split_video] returns the
    empty list and cuts and renders nothing: for zero, the [ValueError] of
    [range] is caught and printed; below zero the range is empty and nothing
    is printed. *)
Theorem split_video_nonpositive_chunk_duration :
  forall (h : trace YT Stream Clip) video_path output_folder d clip r evs,
    d <= 0 ->
    lib_VideoFileClip E h video_path = Returned clip ->
    (0 <= clip_duration E clip)%Q ->
    split_video E video_path output_folder d h = (r, evs) ->
    r = Returned [] /\ windows evs = [] /\ render_calls evs = [] /\
    (d = 0 ->
     evs = [EvVideoFileClip video_path (Returned clip);
            EvPrint "Error splitting video: range() arg 3 must not be zero"]) /\
    (d < 0 -> evs = [EvVideoFileClip video_path (Returned clip)]).
Proof.
  intros h video_path output_folder d clip r evs Hd Hopen Hpos Hrun.
  pose proof (py_int_nonneg _ Hpos) as HT.
  rewrite split_video_unfold in Hrun.
  unfold try_except, bind at 1, VideoFileClip at 1, call in Hrun.
  rewrite Hopen in Hrun.
  unfold bind at 1, lift, py_range, range_len in Hrun.
  destruct (d =? 0) eqn:H0.
  - apply Z.eqb_eq in H0. finish_run Hrun.
    repeat split; auto. lia.
  - apply Z.eqb_neq in H0.
    destruct (0 <? d) eqn:H1; [apply Z.ltb_lt in H1; lia |].
    destruct (py_int (clip_duration E clip) <? 0) eqn:H2;
      [apply Z.ltb_lt in H2; lia |].
    cbn in Hrun. injection Hrun as <- <-.
    repeat split; auto. lia.
Qed.

Lemma split_video_success_run :
  forall (h : trace YT Stream Clip) video_path output_folder d clip r evs,
    0 < d ->
    lib_VideoFileClip E h video_path = Returned clip ->
    split_video E video_path output_folder d h = (r, evs) ->
    all_returned evs = true ->
    let n := ceil_div (py_int (clip_duration E clip)) d in
    r = Returned (map (chunk_path output_folder) (indices n)) /\
    windows evs = map (window d (py_int (clip_duration E clip))) (indices n).
Proof.
  intros h video_path output_folder d clip r evs Hd Hopen Hrun Hok n.
  rewrite split_video_unfold in Hrun.
  unfold try_except, bind at 1, VideoFileClip at 1, call in Hrun.
  rewrite Hopen in Hrun.
  unfold bind at 1, lift in Hrun.
  rewrite py_range_chunks in Hrun by assumption. fold n in Hrun.
  destruct (for_each _ _ _ _) as [r' evs'] eqn:Hloop.
  rewrite app_nil_l in Hrun.
  destruct (loop_outcome _ _ _ _ _ _ _ _ _ _ Hloop)
    as [(chunks' & -> & Hok') | (e & -> & Hbad)].
  - inversion Hrun; subst; clear Hrun.
    destruct (loop_chunks _ _ _ _ _ Hd _ _ _ _ _ Hloop Hok')
      as (chunks & Hlen & Hr & Hevs).
    rewrite length_seq in Hlen. inversion Hr; subst chunks'; clear Hr.
    split.
    + unfold indices. rewrite map_map. reflexivity.
    + subst evs'. cbn [windows flat_map app]. apply windows_chunks.
      unfold indices. rewrite length_map, length_seq. exact Hlen.
  - finish_run Hrun.
    match type of Hok with
    | all_returned (?x :: ?l ++ ?m) = _ =>
        change (ev_returned x && all_returned (l ++ m) = true) in Hok
    end.
    rewrite all_returned_app, Hbad in Hok. cbn [ev_returned returned andb] in Hok.
    discriminate.
Qed.

(** X5. In a run of [split_video] without a failure, the windows cut
    follow one another from 0 to [T = int(duration)] without gap or overlap,
    each one non-empty. *)
Theorem split_video_windows_chain :
  forall (h : trace YT Stream Clip) video_path output_folder d clip r evs,
    0 < d ->
    lib_VideoFileClip E h video_path = Returned clip ->
    (0 <= clip_duration E clip)%Q ->
    split_video E video_path output_folder d h = (r, evs) ->
    all_returned evs = true ->
    chain 0 (windows evs) (py_int (clip_duration E clip)).
Proof.
  intros h video_path output_folder d clip r evs Hd Hopen Hpos Hrun Hok.
  destruct (split_video_success_run _ _ _ _ _ _ _ Hd Hopen Hrun Hok) as [_ Hw].
  rewrite Hw. unfold indices.
  pose proof (py_int_nonneg _ Hpos) as HT.
  pose proof (ceil_div_spec (py_int (clip_duration E clip)) d Hd) as Hn.
  set (T := py_int (clip_duration E clip)) in *.
  set (n := ceil_div T d) in *.
  assert (0 <= n) by nia.
  replace 0 with (Z.min ((Z.of_nat 1 - 1) * d) T) at 1 by lia.
  apply chain_windows; [assumption |]. lia.
Qed.

(** X6. In a run of [split_video] without a failure, the paths returned
    are pairwise distinct: no chunk is rendered over another. *)
Theorem split_video_chunk_paths_distinct :
  forall (h : trace YT Stream Clip) video_path output_folder d clip r evs,
    0 < d ->
    lib_VideoFileClip E h video_path = Returned clip ->
    split_video E video_path output_folder d h = (r, evs) ->
    all_returned evs = true ->
    exists paths, r = Returned paths /\ NoDup paths.
Proof.
  intros h video_path output_folder d clip r evs Hd Hopen Hrun Hok.
  destruct (split_video_success_run _ _ _ _ _ _ _ Hd Hopen Hrun Hok) as [Hr _].
  eexists. split; [exact Hr |].
  apply Injective_map_NoDup; [intros i j; apply chunk_path_inj |].
  unfold indices. apply Injective_map_NoDup; [intros i j; apply Nat2Z.inj |].
  apply seq_NoDup.
Qed.

(** *** process_video_pair *)

Lemma stack_videos_returns :
  forall (h : trace YT Stream Clip) top_path bottom_path output_path,
  exists p evs,
    stack_videos E top_path bottom_path output_path h = (Returned p, evs) /\
    (p = None \/ p = Some output_path).
Proof.
  intros h top_path bottom_path output_path.
  unfold stack_videos, adjust_video_durations. unfold_calls.
  repeat (case_call; cbn [app truthy_obj negb orb]).
  all: eexists; eexists; (split; [reflexivity | auto]).
Qed.

Lemma split_video_returns :
  forall (h : trace YT Stream Clip) video_path output_folder d,
  exists chunks evs,
    split_video E video_path output_folder d h = (Returned chunks, evs).
Proof.
  intros h video_path output_folder d.
  destruct (split_video E video_path output_folder d h) as [r evs] eqn:Hrun.
  rewrite split_video_unfold in Hrun.
  unfold try_except, bind at 1, VideoFileClip at 1, call in Hrun.
  destruct (lib_VideoFileClip E h video_path) as [clip | e].
  - unfold bind at 1, lift in Hrun.
    destruct (py_range 0 _ d) as [starts | e].
    + destruct (for_each _ _ _ _) as [[chunks | e] evs'].
      * injection Hrun as <- <-. eauto.
      * finish_run Hrun. eauto.
    + finish_run Hrun. eauto.
  - finish_run Hrun. eauto.
Qed.

Lemma combined_path_nonempty (output_folder : string) :
  (path_join output_folder "combined_video.mp4" =? "")%string = false.
Proof.
  unfold path_join.
  change (starts_with_sep "combined_video.mp4") with false. cbv iota.
  destruct output_folder as [| c rest]; [reflexivity |].
  destruct ((String c rest =? "")%string || ends_with_sep (String c rest));
    reflexivity.
Qed.

Lemma stack_videos_catches_fail_aux :
  forall (h : trace YT Stream Clip) top_path bottom_path output_path evs,
    stack_videos E top_path bottom_path output_path h = (Returned None, evs) ->
    rendered evs = [] /\ made_dirs evs = [] /\ windows evs = [].
Proof.
  intros h top_path bottom_path output_path evs.
  unfold stack_videos, adjust_video_durations. unfold_calls.
  repeat (case_call; cbn [app truthy_obj negb orb]).
  all: intros Hrun; try discriminate Hrun.
  all: injection Hrun as <-; auto.
Qed.


(** X8. When both downloads gave a path and [stack_videos] returns
    [None], [process_video_pair] prints one line and returns: no directory is
    created, nothing is cut, and no render call returned. *)
Theorem process_video_pair_skips_failed_stack :
  forall (h : trace YT Stream Clip) top_url bottom_url output_folder
         top_path e1 bottom_path e2 e3,
    download_video E top_url output_folder h = (Returned (Some top_path), e1) ->
    download_video E bottom_url output_folder (h ++ e1)
      = (Returned (Some bottom_path), e2) ->
    top_path <> ""%string -> bottom_path <> ""%string ->
    stack_videos E top_path bottom_path
      (path_join output_folder "combined_video.mp4") ((h ++ e1) ++ e2)
      = (Returned None, e3) ->
    let evs := e1 ++ e2 ++ e3 ++ [EvPrint "Failed to combine videos. Skipping."] in
    process_video_pair E top_url bottom_url output_folder h = (Returned tt, evs) /\
    rendered evs = [] /\ made_dirs evs = [] /\ windows evs = [].
Proof.
  intros h top_url bottom_url output_folder top_path e1 bottom_path e2 e3
    H1 H2 Ht Hb H3 evs.
  assert (Hrun : process_video_pair E top_url bottom_url output_folder h
                 = (Returned tt, evs)).
  { unfold process_video_pair. unfold bind at 1. rewrite H1.
    unfold bind at 1. rewrite H2. cbn [truthy_path].
    apply String.eqb_neq in Ht, Hb. rewrite Ht, Hb. cbn [negb orb].
    unfold bind at 1. rewrite H3. reflexivity. }
  split; [exact Hrun |].
  pose proof (process_video_pair_footprint _ _ _ _ _ _ Hrun) as Hfoot.
  destruct (download_video_quiet E h top_url output_folder)
    as (p1' & e1' & R1 & _ & _ & C1 & D1).
  destruct (download_video_quiet E (h ++ e1) bottom_url output_folder)
    as (p2' & e2' & R2 & _ & _ & C2 & D2).
  rewrite H1 in R1. rewrite H2 in R2. injection R1 as _ <-. injection R2 as _ <-.
  pose proof (download_video_footprint _ _ _ _ _ H1) as F1.
  pose proof (download_video_footprint _ _ _ _ _ H2) as F2.
  pose proof (stack_videos_footprint _ _ _ _ _ _ H3) as F3.
  destruct (stack_videos_catches_fail_aux _ _ _ _ _ H3) as [Hr3 Hd3].
  assert (Hq : forall l : trace YT Stream Clip,
             Forall (download_footprint top_url output_folder) l \/
             Forall (download_footprint bottom_url output_folder) l ->
             rendered l = [] /\ windows l = []).
  { intros l Hl. assert (Hl' : Forall (fun ev => match ev with
        | EvWriteVideofile _ _ _ _ _ | EvSubclip _ _ _ _ => False | _ => True end) l).
    { destruct Hl as [Hl | Hl]; (eapply Forall_impl; [| exact Hl]);
        intros []; cbn; auto. }
    clear Hl. induction Hl' as [| ev l Hev _ IH]; [auto |].
    destruct IH as [IH1 IH2]. destruct ev; try contradiction;
      cbn; rewrite ?IH1, ?IH2; auto. }
  destruct (Hq e1 (or_introl F1)) as [Q1 W1].
  destruct (Hq e2 (or_intror F2)) as [Q2 W2].
  unfold evs, rendered, made_dirs, windows in *.
  rewrite !flat_map_app. rewrite Q1, Q2, W1, W2, D1, D2.
  destruct Hd3 as (Hd3 & Hw3). rewrite Hr3, Hd3, Hw3. auto.
Qed.

(** X9. When both downloads gave a path, the composite was rendered and
    the [chunks] folder was created, [process_video_pair] ends with
    [split_video] on [combined_video.mp4], into the [chunks] folder, in
    chunks of 75 seconds, and returns. *)
Theorem process_video_pair_chunks_the_composite :
  forall (h : trace YT Stream Clip) top_url bottom_url output_folder
         top_path e1 bottom_path e2 e3 chunks e4,
    let combined := path_join output_folder "combined_video.mp4" in
    let chunks_folder := path_join output_folder "chunks" in
    download_video E top_url output_folder h = (Returned (Some top_path), e1) ->
    download_video E bottom_url output_folder (h ++ e1)
      = (Returned (Some bottom_path), e2) ->
    top_path <> ""%string -> bottom_path <> ""%string ->
    stack_videos E top_path bottom_path combined ((h ++ e1) ++ e2)
      = (Returned (Some combined), e3) ->
    os_makedirs E (((h ++ e1) ++ e2) ++ e3) chunks_folder true = Returned tt ->
    split_video E combined chunks_folder 75
      ((((h ++ e1) ++ e2) ++ e3) ++ [EvMakedirs chunks_folder true (Returned tt)])
      = (Returned chunks, e4) ->
    process_video_pair E top_url bottom_url output_folder h =
    (Returned tt,
     e1 ++ e2 ++ e3 ++ [EvMakedirs chunks_folder true (Returned tt)] ++ e4).
Proof.
  intros h top_url bottom_url output_folder top_path e1 bottom_path e2 e3
    chunks e4 combined chunks_folder H1 H2 Ht Hb H3 H4 H5.
  unfold process_video_pair. unfold bind at 1. rewrite H1.
  unfold bind at 1. rewrite H2. cbn [truthy_path].
  apply String.eqb_neq in Ht, Hb. rewrite Ht, Hb. cbn [negb orb].
  unfold bind at 1. fold combined. rewrite H3.
  unfold combined at 1. rewrite combined_path_nonempty.
  unfold bind at 1, makedirs, call. fold chunks_folder. rewrite H4.
  unfold bind at 1. fold combined. rewrite H5.
  unfold ret. rewrite app_nil_r. reflexivity.
Qed.

Lemma footprint_observed (top_url bottom_url output_folder : string)
  (evs : trace YT Stream Clip) :
  Forall (pair_footprint top_url bottom_url output_folder) evs ->
  Forall (eq output_folder) (download_dirs evs) /\
  Forall (eq (path_join output_folder "chunks")) (made_dirs evs) /\
  Forall (fun path =>
            path = path_join output_folder "combined_video.mp4" \/
            exists i, 1 <= i /\
                      path = chunk_path (path_join output_folder "chunks") i)
         (render_calls evs) /\
  typed_urls evs = [] /\ choices evs = [] /\ resolved_playlists evs = [].
Proof.
  induction 1 as [| ev evs Hev _ (IH1 & IH2 & IH3 & IH4 & IH5 & IH6)].
  - repeat split; constructor.
  - destruct ev; cbn in Hev; try contradiction;
      cbn [download_dirs made_dirs render_calls typed_urls choices
           resolved_playlists flat_map app];
      fold (download_dirs evs); fold (made_dirs evs); fold (render_calls evs);
      fold (typed_urls evs); fold (choices evs); fold (resolved_playlists evs);
      repeat split; auto.
    all: constructor;
      [ first [ symmetry; exact Hev | exact (proj1 Hev)
              | symmetry; exact (proj1 Hev) ]
      | assumption ].
Qed.

(** X10. Whatever happens, [process_video_pair] downloads into
    [output_folder] only, creates no directory but [chunks] in it, renders
    to [combined_video.mp4] in it and to files [chunk_<i>.mp4], [i >= 1], of
    its [chunks] folder only; it reads no prompt and resolves no playlist. *)
Theorem process_video_pair_stays_in_folder :
  forall (h : trace YT Stream Clip) top_url bottom_url output_folder r evs,
    process_video_pair E top_url bottom_url output_folder h = (r, evs) ->
    Forall (eq output_folder) (download_dirs evs) /\
    Forall (eq (path_join output_folder "chunks")) (made_dirs evs) /\
    Forall (fun path =>
              path = path_join output_folder "combined_video.mp4" \/
              exists i, 1 <= i /\
                        path = chunk_path (path_join output_folder "chunks") i)
           (render_calls evs) /\
    typed_urls evs = [] /\ resolved_playlists evs = [].
Proof.
  intros h top_url bottom_url output_folder r evs Hrun.
  apply process_video_pair_footprint, footprint_observed in Hrun.
  tauto.
Qed.

(** *** The run drivers *)

Lemma pair_footprint_run top_url bottom_url output_folder (ev : event YT Stream Clip) :
  pair_footprint top_url bottom_url output_folder ev ->
  run_footprint output_folder ev.
Proof. destruct ev; cbn; tauto. Qed.

Lemma run_footprint_observed (run_folder : string) (evs : trace YT Stream Clip) :
  Forall (run_footprint run_folder) evs ->
  Forall (eq run_folder) (download_dirs evs) /\
  Forall (fun path => path = run_folder \/ path = path_join run_folder "chunks")
         (made_dirs evs) /\
  Forall (fun path =>
            path = path_join run_folder "combined_video.mp4" \/
            exists i, 1 <= i /\
                      path = chunk_path (path_join run_folder "chunks") i)
         (render_calls evs) /\
  choices evs = [].
Proof.
  induction 1 as [| ev evs Hev _ (IH1 & IH2 & IH3 & IH4)].
  - repeat split; constructor.
  - destruct ev; cbn in Hev; try contradiction;
      cbn [download_dirs made_dirs render_calls choices flat_map app];
      fold (download_dirs evs); fold (made_dirs evs); fold (render_calls evs);
      fold (choices evs);
      repeat split; auto.
    all: try (constructor;
      [ first [ symmetry; exact Hev | exact (proj1 Hev) ] | assumption ]).
    destruct r; [| assumption].
    repeat (destruct Hev as [<- | Hev]; [cbn; assumption |]). contradiction.
Qed.

Lemma process_single_video_footprint :
  forall (h : trace YT Stream Clip) r evs,
    process_single_video E h = (r, evs) ->
    Forall (run_footprint
              ("output_" ++ datetime_now_strftime E h "%Y%m%d_%H%M%S")%string) evs.
Proof.
  intros h r evs Hrun.
  revert Hrun. unfold process_single_video, create_output_folder. unfold_calls.
  repeat (case_call; cbn [app]).
  2-4: intros Hrun; injection Hrun as <- <-;
    repeat (constructor; [cbn; auto 10 |]); constructor.
  destruct (process_video_pair _ _ _ _ _) as [r' evs'] eqn:Hpair.
  intros Hrun; injection Hrun as <- <-.
  apply process_video_pair_footprint in Hpair.
  repeat (constructor; [cbn; auto 10 |]).
  eapply Forall_impl; [| exact Hpair]. intros ev. apply pair_footprint_run.
Qed.

Lemma pairs_loop_footprint output_folder :
  forall pairs (h : trace YT Stream Clip) r evs,
    for_each pairs tt (pair_body E output_folder) h = (r, evs) ->
    Forall (run_footprint output_folder) evs.
Proof.
  induction pairs as [| [top_url bottom_url] rest IH]; intros h r evs Hrun.
  - injection Hrun as <- <-. constructor.
  - cbn [for_each] in Hrun. unfold bind at 1 in Hrun.
    unfold pair_body at 1 in Hrun. unfold bind at 1, print at 1 in Hrun.
    destruct (process_video_pair _ _ _ _ _) as [[[] | e] e1] eqn:Hpair;
      apply process_video_pair_footprint in Hpair;
      (assert (G1 : Forall (run_footprint output_folder) e1)
        by (eapply Forall_impl; [| exact Hpair];
            intros ev; apply pair_footprint_run)).
    + destruct (for_each rest _ _ _) as [r' evs'] eqn:Hrest.
      injection Hrun as <- <-. apply IH in Hrest.
      constructor; [exact I |]. apply Forall_app. split; assumption.
    + injection Hrun as <- <-. constructor; [exact I | exact G1].
Qed.

Lemma process_playlists_footprint :
  forall (h : trace YT Stream Clip) r evs,
    process_playlists E h = (r, evs) ->
    Forall (run_footprint
              ("output_" ++ datetime_now_strftime E h "%Y%m%d_%H%M%S")%string) evs.
Proof.
  intros h r evs Hrun.
  rewrite process_playlists_unfold in Hrun.
  unfold create_output_folder in Hrun. unfold_calls.
  revert Hrun.
  repeat (case_call; cbn [app]).
  2-6: intros Hrun; injection Hrun as <- <-;
    repeat (constructor; [cbn; auto 10 |]); constructor.
  destruct (for_each _ _ _ _) as [r' evs'] eqn:Hloop.
  intros Hrun; injection Hrun as <- <-.
  apply pairs_loop_footprint in Hloop.
  repeat (constructor; [cbn; auto 10 |]). exact Hloop.
Qed.


(** X12. When one of the two playlists does not resolve (or the run fails
    before), [process_playlists] raises, and nothing was fetched, downloaded
    or rendered. *)
Theorem process_playlists_needs_both_playlists :
  forall (h : trace YT Stream Clip) r evs,
    process_playlists E h = (r, evs) ->
    (List.length (resolved_playlists evs) < 2)%nat ->
    (exists e, r = Raised e) /\
    fetched evs = [] /\ download_dirs evs = [] /\ render_calls evs = [].
Proof.
  intros h r evs Hrun.
  rewrite process_playlists_unfold in Hrun.
  unfold create_output_folder in Hrun. unfold_calls.
  revert Hrun.
  repeat (case_call; cbn [app]).
  2-6: intros Hrun; injection Hrun as <- <-; intros _; eauto.
  destruct (for_each _ _ _ _) as [r' evs'] eqn:Hloop.
  intros Hrun; injection Hrun as <- <-.
  destruct (pairs_loop _ _ _ _ _ _ Hloop) as (k & _ & _ & Pk & _).
  cbn [resolved_playlists flat_map app]. fold (resolved_playlists evs').
  rewrite Pk. cbn. lia.
Qed.

(** X13. A run of [process_playlists] works in one folder
    [output_<timestamp>], created first: every pair is downloaded into it,
    every composite is rendered to the same [combined_video.mp4] in it, and
    every chunk to the same [chunks] folder in it. *)
Theorem process_playlists_run_directory :
  forall (h : trace YT Stream Clip) r evs,
    process_playlists E h = (r, evs) ->
    exists stamp,
      let run_folder := ("output_" ++ stamp)%string in
      hd_error (made_dirs evs) = Some run_folder /\
      Forall (eq run_folder) (download_dirs evs) /\
      Forall (fun path => path = run_folder \/ path = path_join run_folder "chunks")
             (made_dirs evs) /\
      Forall (fun path =>
                path = path_join run_folder "combined_video.mp4" \/
                exists i, 1 <= i /\
                          path = chunk_path (path_join run_folder "chunks") i)
             (render_calls evs).
Proof.
  intros h r evs Hrun.
  exists (datetime_now_strftime E h "%Y%m%d_%H%M%S").
  pose proof (process_playlists_footprint _ _ _ Hrun) as Hfoot.
  apply run_footprint_observed in Hfoot.
  destruct Hfoot as (H1 & H2 & H3 & _).
  split; [| auto].
  rewrite process_playlists_unfold in Hrun.
  unfold create_output_folder in Hrun. unfold_calls.
  revert Hrun. clear H1 H2 H3.
  repeat (case_call; cbn [app]).
  all: try destruct (for_each _ _ _ _) as [r' evs'].
  all: intros Hrun; injection Hrun as <- <-; reflexivity.
Qed.

(** *** main *)

Ltac norm_obs :=
  unfold choices, fetched, render_calls, made_dirs in *;
  cbn [flat_map app] in *;
  rewrite ?String.eqb_refl, ?flat_map_app in *;
  cbn [app List.length] in *.

Lemma main_trace :
  forall fuel (h : trace YT Stream Clip) r evs,
    main E fuel h = (r, evs) ->
    (r = Returned (Some tt) ->
     exists cs before,
       choices evs = cs ++ ["3"%string] /\ ~ In "3"%string cs /\
       evs = before ++ [EvPrint "Exiting."]) /\
    (r = Returned None ->
     List.length (choices evs) = fuel /\ ~ In "3"%string (choices evs)) /\
    ((forall c, In c (choices evs) -> c <> "1"%string /\ c <> "2"%string) ->
     fetched evs = [] /\ render_calls evs = [] /\ made_dirs evs = []).
Proof.
  induction fuel as [| fuel IH]; intros h r evs Hrun.
  - injection Hrun as <- <-.
    split; [discriminate | split; [intros _; split; [reflexivity | intros []] | auto]].
  - cbn [main] in Hrun. unfold_calls. revert Hrun.
    destruct (builtin_input E _ _) as [a | e]; cbn [app].
    2: { intros Hrun; injection Hrun as <- <-.
         split; [discriminate | split; [discriminate | auto]]. }
    destruct (strip a =? "1")%string eqn:H1;
      [| destruct (strip a =? "2")%string eqn:H2;
         [| destruct (strip a =? "3")%string eqn:H3]].
    + apply String.eqb_eq in H1.
      destruct (process_single_video E _) as [[[] | e] e1] eqn:Hs;
        apply process_single_video_footprint, run_footprint_observed in Hs;
        destruct Hs as (_ & _ & _ & Hc).
      * destruct (main E fuel _) as [r2 e2] eqn:Hm.
        intros Hrun; injection Hrun as <- <-.
        destruct (IH _ _ _ Hm) as (IH1 & IH2 & IH3).
        norm_obs. rewrite Hc. cbn [app].
        split; [| split].
        -- intros Hr. destruct (IH1 Hr) as (cs & before & Hcs & Hn & He).
           exists (strip a :: cs). eexists.
           rewrite Hcs, He. split; [reflexivity | split].
           ++ intros [Hx | Hx]; [rewrite H1 in Hx; discriminate | auto].
           ++ rewrite !app_comm_cons, !app_assoc. reflexivity.
        -- intros Hr. destruct (IH2 Hr) as (Hl & Hn).
           split; [rewrite Hl; reflexivity |].
           intros [Hx | Hx]; [rewrite H1 in Hx; discriminate | auto].
        -- intros Hno. destruct (Hno (strip a) (or_introl eq_refl)) as [Hx _].
           contradiction.
      * intros Hrun; injection Hrun as <- <-.
        norm_obs. rewrite Hc.
        split; [discriminate | split; [discriminate |]].
        intros Hno; destruct (Hno (strip a) (or_introl eq_refl)) as [Hx _];
          contradiction.
    + apply String.eqb_eq in H2.
      destruct (process_playlists E _) as [[[] | e] e1] eqn:Hs;
        apply process_playlists_footprint, run_footprint_observed in Hs;
        destruct Hs as (_ & _ & _ & Hc).
      * destruct (main E fuel _) as [r2 e2] eqn:Hm.
        intros Hrun; injection Hrun as <- <-.
        destruct (IH _ _ _ Hm) as (IH1 & IH2 & IH3).
        norm_obs. rewrite Hc. cbn [app].
        split; [| split].
        -- intros Hr. destruct (IH1 Hr) as (cs & before & Hcs & Hn & He).
           exists (strip a :: cs). eexists.
           rewrite Hcs, He. split; [reflexivity | split].
           ++ intros [Hx | Hx]; [rewrite H2 in Hx; discriminate | auto].
           ++ rewrite !app_comm_cons, !app_assoc. reflexivity.
        -- intros Hr. destruct (IH2 Hr) as (Hl & Hn).
           split; [rewrite Hl; reflexivity |].
           intros [Hx | Hx]; [rewrite H2 in Hx; discriminate | auto].
        -- intros Hno. destruct (Hno (strip a) (or_introl eq_refl)) as [_ Hx].
           contradiction.
      * intros Hrun; injection Hrun as <- <-.
        norm_obs. rewrite Hc.
        split; [discriminate | split; [discriminate |]].
        intros Hno; destruct (Hno (strip a) (or_introl eq_refl)) as [_ Hx];
          contradiction.
    + apply String.eqb_eq in H3.
      intros Hrun; injection Hrun as <- <-.
      norm_obs.
      split; [| split; [discriminate | auto]].
      intros _. exists []. eexists [_; _; _; _; _]. rewrite H3.
      split; [reflexivity | split; [intros [] | reflexivity]].
    + apply String.eqb_neq in H3.
      destruct (main E fuel _) as [r2 e2] eqn:Hm.
      intros Hrun; injection Hrun as <- <-.
      destruct (IH _ _ _ Hm) as (IH1 & IH2 & IH3).
      norm_obs.
      split; [| split].
      * intros Hr. destruct (IH1 Hr) as (cs & before & Hcs & Hn & He).
        exists (strip a :: cs). eexists.
        rewrite Hcs, He. split; [reflexivity | split].
        -- intros [Hx | Hx]; [congruence | auto].
        -- rewrite !app_comm_cons. reflexivity.
      * intros Hr. destruct (IH2 Hr) as (Hl & Hn).
        split; [rewrite Hl; reflexivity |].
        intros [Hx | Hx]; [congruence | auto].
      * intros Hno. apply IH3. intros c Hc. apply Hno. right. exact Hc.
Qed.

Lemma main_fuel_stable :
  forall fuel (h : trace YT Stream Clip) r evs,
    main E fuel h = (r, evs) ->
    r <> Returned None ->
    forall more, main E (fuel + more) h = (r, evs).
Proof.
  induction fuel as [| fuel IH]; intros h r evs Hrun Hr more.
  - injection Hrun as <- <-. contradiction.
  - cbn [main Nat.add] in *. unfold_calls. revert Hrun.
    destruct (builtin_input E _ _) as [a | e]; cbn [app]; [| auto].
    destruct (strip a =? "1")%string;
      [| destruct (strip a =? "2")%string;
         [| destruct (strip a =? "3")%string]]; [| | auto |].
    + destruct (process_single_video E _) as [[[] | e] e1]; [| auto].
      destruct (main E fuel _) as [r2 e2] eqn:Hm.
      intros Hrun; injection Hrun as <- <-.
      rewrite (IH _ _ _ Hm Hr more). reflexivity.
    + destruct (process_playlists E _) as [[[] | e] e1]; [| auto].
      destruct (main E fuel _) as [r2 e2] eqn:Hm.
      intros Hrun; injection Hrun as <- <-.
      rewrite (IH _ _ _ Hm Hr more). reflexivity.
    + destruct (main E fuel _) as [r2 e2] eqn:Hm.
      intros Hrun; injection Hrun as <- <-.
      rewrite (IH _ _ _ Hm Hr more). reflexivity.
Qed.



End MoreProperties.

(** ** More concrete runs *)

Lemma sim_duration_contract : duration_contract (Sim.env Sim.fine).
Proof.
  repeat split.
  - intros h path c Hopen. cbn in Hopen. unfold Sim.some_media in Hopen.
    repeat match type of Hopen with
      | context [if ?b then _ else _] => destruct b
      end; injection Hopen as <-; unfold Qle; simpl; lia.
  - intros h c c' H. cbn in H. injection H as <-. reflexivity.
  - intros h c width c' H. cbn in H. injection H as <-. reflexivity.
  - intros h c pos c' H. cbn in H. injection H as <-. reflexivity.
  - apply sim_loop_sets_duration.
Qed.

Lemma download_video_returns_downloaded_path_witness :
  let E := Sim.env Sim.fine in
  let run := download_video E "a" "out" [] in
  all_returned (snd run) = true /\ fst run = Returned (Some "out/a.mp4"%string).
Proof.
  intros E run.
  destruct (download_video_returns_downloaded_path E [] "a" "out"
              (fst run) (snd run) (surjective_pairing run)) as [Hok _].
  assert (Hstream : forall yt,
             ~ In (EvHighestResolution yt (Returned None)) (snd run)).
  { intros yt Hin. vm_compute in Hin.
    repeat (destruct Hin as [Hin | Hin]; [discriminate Hin |]). exact Hin. }
  destruct (Hok eq_refl Hstream) as (path & Hpath).
  split; [reflexivity |]. rewrite Hpath. vm_compute in Hpath.
  injection Hpath as <-. reflexivity.
Defined.

Lemma stack_videos_catches_failures_witness :
  exists evs,
    stack_videos (Sim.env Sim.no_composite) "out/a.mp4" "out/narrow.mp4"
      "out/combined_video.mp4" [] = (Returned None, evs) /\
    all_returned evs = false /\ rendered evs = [].
Proof.
  destruct (stack_videos_catches_failures (Sim.env Sim.no_composite) []
              "out/a.mp4" "out/narrow.mp4" "out/combined_video.mp4")
    as (p & evs & Hrun & _ & Hfail).
  assert (Hbad : all_returned evs = false).
  { vm_compute in Hrun. injection Hrun as _ <-. reflexivity. }
  destruct (Hfail Hbad) as [-> Hrendered].
  exists evs. split; [exact Hrun | split; [exact Hbad | exact Hrendered]].
Defined.

Lemma stack_videos_bottom_covers_top_witness :
  let E := Sim.env Sim.fine in
  let run := stack_videos E "out/a.mp4" "out/narrow.mp4" "out/combined_video.mp4" [] in
  fst run = Returned (Some "out/combined_video.mp4"%string) /\
  exists top_layer bottom_layer,
    composited (snd run) = [[top_layer; bottom_layer]] /\
    (Sim.duration top_layer <= Sim.duration bottom_layer)%Q.
Proof.
  intros E run.
  split; [reflexivity |].
  exact (stack_videos_bottom_covers_top E [] "out/a.mp4" "out/narrow.mp4"
           "out/combined_video.mp4" "out/combined_video.mp4" (snd run)
           sim_duration_contract eq_refl).
Defined.

Lemma split_video_nonpositive_chunk_duration_witness :
  let E := Sim.env Sim.fine in
  let run := split_video E "out/combined_video.mp4" "out/chunks" 0 [] in
  0 <= 0 /\ fst run = Returned [] /\ windows (snd run) = [] /\
  render_calls (snd run) = [].
Proof.
  intros E run.
  destruct (split_video_nonpositive_chunk_duration E [] "out/combined_video.mp4"
              "out/chunks" 0
              (Sim.mkClip 1280 720 (200 # 1) ["out/combined_video.mp4"%string])
              (fst run) (snd run) ltac:(lia) eq_refl
              ltac:(unfold Qle; simpl; lia) (surjective_pairing run))
    as (Hr & Hw & Hc & _).
  split; [lia | split; [exact Hr | split; [exact Hw | exact Hc]]].
Defined.

Lemma split_video_windows_chain_witness :
  let E := Sim.env Sim.fine in
  let run := split_video E "out/combined_video.mp4" "out/chunks" 75 [] in
  0 < 75 /\ all_returned (snd run) = true /\ chain 0 (windows (snd run)) 200.
Proof.
  intros E run.
  split; [lia | split; [reflexivity |]].
  exact (split_video_windows_chain E [] "out/combined_video.mp4" "out/chunks" 75
           (Sim.mkClip 1280 720 (200 # 1) ["out/combined_video.mp4"%string])
           (fst run) (snd run) ltac:(lia) eq_refl
           ltac:(unfold Qle; simpl; lia) (surjective_pairing run) eq_refl).
Defined.

Lemma split_video_chunk_paths_distinct_witness :
  let E := Sim.env Sim.fine in
  let run := split_video E "out/combined_video.mp4" "out/chunks" 75 [] in
  0 < 75 /\ all_returned (snd run) = true /\
  exists paths, fst run = Returned paths /\ NoDup paths.
Proof.
  intros E run.
  split; [lia | split; [reflexivity |]].
  exact (split_video_chunk_paths_distinct E [] "out/combined_video.mp4"
           "out/chunks" 75
           (Sim.mkClip 1280 720 (200 # 1) ["out/combined_video.mp4"%string])
           (fst run) (snd run) ltac:(lia) eq_refl (surjective_pairing run) eq_refl).
Defined.


Lemma process_video_pair_skips_failed_stack_witness :
  let E := Sim.env Sim.no_composite in
  let top := download_video E "a" "out" [] in
  let bottom := download_video E "b" "out" ([] ++ snd top) in
  let stack := stack_videos E "out/a.mp4" "out/b.mp4"
                 (path_join "out" "combined_video.mp4")
                 (([] ++ snd top) ++ snd bottom) in
  let run := process_video_pair E "a" "b" "out" [] in
  fst stack = Returned None /\
  fst run = Returned tt /\ rendered (snd run) = [] /\ made_dirs (snd run) = [].
Proof.
  intros E top bottom stack run.
  destruct (process_video_pair_skips_failed_stack E [] "a" "b" "out"
              "out/a.mp4" (snd top) "out/b.mp4" (snd bottom) (snd stack)
              eq_refl eq_refl ltac:(discriminate) ltac:(discriminate) eq_refl)
    as (Hrun & Hrendered & Hdirs & _).
  fold run in Hrun. rewrite Hrun.
  split; [reflexivity | split; [reflexivity | split; assumption]].
Defined.

Lemma process_video_pair_chunks_the_composite_witness :
  let E := Sim.env Sim.fine in
  let top := download_video E "a" "out" [] in
  let bottom := download_video E "b" "out" ([] ++ snd top) in
  let stack := stack_videos E "out/a.mp4" "out/b.mp4" "out/combined_video.mp4"
                 (([] ++ snd top) ++ snd bottom) in
  let split := split_video E "out/combined_video.mp4" "out/chunks" 75
                 (((([] ++ snd top) ++ snd bottom) ++ snd stack)
                  ++ [EvMakedirs "out/chunks" true (Returned tt)]) in
  fst stack = Returned (Some "out/combined_video.mp4"%string) /\
  process_video_pair E "a" "b" "out" [] =
  (Returned tt,
   snd top ++ snd bottom ++ snd stack
   ++ [EvMakedirs "out/chunks" true (Returned tt)] ++ snd split).
Proof.
  intros E top bottom stack split.
  split; [reflexivity |].
  exact (process_video_pair_chunks_the_composite E [] "a" "b" "out"
           "out/a.mp4" (snd top) "out/b.mp4" (snd bottom) (snd stack)
           ["out/chunks/chunk_1.mp4"; "out/chunks/chunk_2.mp4";
            "out/chunks/chunk_3.mp4"]%string (snd split)
           eq_refl eq_refl ltac:(discriminate) ltac:(discriminate)
           eq_refl eq_refl eq_refl).
Defined.

Lemma process_video_pair_stays_in_folder_witness :
  let E := Sim.env Sim.fine in
  let run := process_video_pair E "a" "b" "out" [] in
  Forall (eq "out"%string) (download_dirs (snd run)) /\
  made_dirs (snd run) = ["out/chunks"%string] /\
  typed_urls (snd run) = [].
Proof.
  intros E run.
  destruct (process_video_pair_stays_in_folder E [] "a" "b" "out"
              (fst run) (snd run) (surjective_pairing run))
    as (Hd & _ & _ & Ht & _).
  split; [exact Hd | split; [reflexivity | exact Ht]].
Defined.


Lemma process_playlists_needs_both_playlists_witness :
  let run := process_playlists (Sim.env_private_playlists Sim.fine) [] in
  (List.length (resolved_playlists (snd run)) < 2)%nat /\
  (exists e, fst run = Raised e) /\ fetched (snd run) = [].
Proof.
  intros run.
  assert (Hfew : (List.length (resolved_playlists (snd run)) < 2)%nat)
    by (vm_compute; lia).
  destruct (process_playlists_needs_both_playlists
              (Sim.env_private_playlists Sim.fine) []
              (fst run) (snd run) (surjective_pairing run) Hfew)
    as (Hr & Hf & _).
  split; [exact Hfew | split; [exact Hr | exact Hf]].
Defined.

Lemma process_playlists_run_directory_witness :
  let run := process_playlists (Sim.env Sim.fine) [] in
  exists stamp,
    hd_error (made_dirs (snd run)) = Some ("output_" ++ stamp)%string /\
    Forall (eq ("output_" ++ stamp)%string) (download_dirs (snd run)).
Proof.
  intros run.
  destruct (process_playlists_run_directory (Sim.env Sim.fine) []
              (fst run) (snd run) (surjective_pairing run))
    as (stamp & Hhd & Hd & _).
  exists stamp. split; [exact Hhd | exact Hd].
Defined.



